(** * pdf_tool_mcp_server: the page-range extraction tool

    A shallow embedding of [src/pdf_tool/pdf_tool_mcp_server.py]:
    the [PDFSplitParams] model with its two field validators and the
    tool function [open_and_split_pdf].

    The tool is a sequence of calls into its surroundings (the logger,
    [os.path.exists], pypdf's reader and writer, [pathlib], [open]).
    These are embedded as computations in a state-and-exception monad
    over a [World] that holds the file system, the faults the codec
    and the operating system may raise, and the trace of calls made so
    far, so that statements such as "no file was touched" are
    statements about the trace.

    Whatever can raise in the source can raise here, the formatting
    of an [int] included: the interpreter refuses to turn an [int] of
    more than 4300 digits into a string, and the tool formats its two
    page numbers in a log line that stands between its two [try]
    blocks. *)

From Stdlib Require Import ZArith Ascii String DecimalString DecimalFacts DecimalPos.
From stdpp Require Import gmap strings list.

Local Open Scope Z_scope.

(** ** Python strings

    A [str] is embedded as a [string]; its characters stand for the
    code points 0..255. *)

Module Py.

Definition nl : string := String "010" EmptyString.

(** [str.isspace] on one character, for the code points below 256:
    TAB, LF, VT, FF, CR, FS, GS, RS, US, SPACE, NEL and NBSP. *)
Definition isspace (c : ascii) : bool :=
  let n := N_of_ascii c in
  ((9 <=? n) && (n <=? 13) || (28 <=? n) && (n <=? 32)
   || (n =? 133) || (n =? 160))%N.

(** [s.lstrip()] *)
Fixpoint lstrip (s : string) : string :=
  match s with
  | EmptyString => EmptyString
  | String c s' => if isspace c then lstrip s' else s
  end.

(** [s.rstrip()]: a character is kept when it is not white space or
    when something is kept after it. *)
Fixpoint rstrip (s : string) : string :=
  match s with
  | EmptyString => EmptyString
  | String c s' =>
      match rstrip s' with
      | EmptyString => if isspace c then EmptyString else String c EmptyString
      | r => String c r
      end
  end.

(** [s.strip()] *)
Definition strip (s : string) : string := rstrip (lstrip s).

(** Truth value of a string: [bool(s)]. *)
Definition truthy (s : string) : bool :=
  match s with EmptyString => false | _ => true end.

(** The decimal form of an [int]: what [str(n)] and [f"{n}"] give
    when they give a string (see [format_int] below). *)
Definition str_int (n : Z) : string := NilZero.string_of_int (Z.to_int n).

(** [sys.int_max_str_digits], at its default. *)
Definition int_max_str_digits : nat := 4300.

(** The interpreter converts [n] to a string: [n] has at most
    [int_max_str_digits] decimal digits, the sign not counted. *)
Definition renders (n : Z) : bool :=
  (String.length (str_int (Z.abs n)) <=? int_max_str_digits)%nat.

(** [sys.maxsize] on a 64-bit host *)
Definition maxsize : Z := 2 ^ 63 - 1.

(** [sep.join(parts)] *)
Definition join (sep : string) (parts : list string) : string :=
  String.concat sep parts.

(** [s.startswith(p)] *)
Definition startswith (p s : string) : bool := String.prefix p s.

(** [range(a, b)] *)
Definition range (a b : Z) : list Z :=
  map (fun k => a + Z.of_nat k) (seq 0 (Z.to_nat (b - a))).

End Py.

(** ** pathlib

    The part of [pathlib] the tool uses, for a POSIX host
    ([PurePosixPath]): a path object keeps the string it was made from
    and is parsed into a root and a list of names.  The suffix of a
    name is taken as CPython does up to 3.13, where a name that ends
    in a dot has none. *)

Module pathlib.

Record Path := mkPath { raw : string }.

(** [s.split("/")] *)
Fixpoint split_sep (s : string) : list string :=
  match s with
  | EmptyString => [EmptyString]
  | String c s' =>
      match split_sep s' with
      | [] => [String c EmptyString]
      | w :: ws =>
          if Ascii.eqb c "/" then EmptyString :: w :: ws
          else String c w :: ws
      end
  end.

(** [posixpath.splitroot], without the drive, which is always empty *)
Definition splitroot (p : string) : string * string :=
  match p with
  | String "/" (String "/" (String "/" r)) => ("/", String "/" (String "/" r))
  | String "/" (String "/" r) => ("//", r)
  | String "/" r => ("/", r)
  | _ => ("", p)
  end.

(** [PurePath._parse_path] *)
Definition parse_path (p : string) : string * list string :=
  if negb (Py.truthy p) then ("", [])
  else
    let '(root, rel) := splitroot p in
    (root,
     filter (fun x => Py.truthy x = true /\ x <> ".") (split_sep rel)).

Definition root (p : Path) : string := fst (parse_path (raw p)).
Definition tail (p : Path) : list string := snd (parse_path (raw p)).

(** [PurePath._format_parsed_parts] *)
Definition format_parsed_parts (root : string) (tail : list string) : string :=
  root +:+ Py.join "/" tail.

(** [str(p)] and [os.fspath(p)] *)
Definition str (p : Path) : string :=
  let s := format_parsed_parts (root p) (tail p) in
  if Py.truthy s then s else ".".

(** [p.name] *)
Definition name (p : Path) : string := List.last (tail p) "".

(** [s.rfind(c)], [None] for -1 *)
Fixpoint rfind (c : ascii) (s : string) : option nat :=
  match s with
  | EmptyString => None
  | String a s' =>
      match rfind c s' with
      | Some i => Some (S i)
      | None => if Ascii.eqb a c then Some 0%nat else None
      end
  end.

(** the test [0 < i < len(name) - 1] on the last dot of a name *)
Definition suffix_at (nm : string) : option nat :=
  match rfind "." nm with
  | Some i =>
      if Nat.ltb 0 i && Nat.ltb (S i) (String.length nm) then Some i else None
  | None => None
  end.

(** [p.suffix] *)
Definition suffix (p : Path) : string :=
  let nm := name p in
  match suffix_at nm with
  | Some i => String.substring i (String.length nm - i) nm
  | None => ""
  end.

(** [p.stem] *)
Definition stem (p : Path) : string :=
  let nm := name p in
  match suffix_at nm with
  | Some i => String.substring 0 i nm
  | None => nm
  end.

(** [p.parent] *)
Definition parent (p : Path) : Path :=
  match tail p with
  | [] => p
  | t => mkPath (format_parsed_parts (root p) (removelast t))
  end.

(** [posixpath.join(a, b)] *)
Definition posix_join (a b : string) : string :=
  if Py.startswith "/" b then b
  else if negb (Py.truthy a) || Py.startswith "/" (String.rev a)
       then a +:+ b
       else a +:+ "/" +:+ b.

(** [p / q] for two path objects *)
Definition truediv (p q : Path) : Path := mkPath (posix_join (raw p) (raw q)).

End pathlib.

(** ** Exceptions

    Every failure the tool can meet is an instance of [Exception]; what
    the tool reads from it is [str(e)]. *)

Record exn := Exception { exn_class : string; exn_str : string }.

Inductive outcome (A : Type) : Type :=
| Ok (a : A)
| Raise (e : exn).
Arguments Ok {A} a.
Arguments Raise {A} e.

(** What the interpreter raises when asked for the decimal form of an
    [int] of more than [sys.int_max_str_digits] digits. *)
Definition digits_error : exn :=
  Exception "ValueError"
    "Exceeds the limit (4300 digits) for integer string conversion; use sys.set_int_max_str_digits() to increase the limit".

(** [str(n)] and [f"{n}"] for an [int] *)
Definition format_int (n : Z) : outcome string :=
  if Py.renders n then Ok (Py.str_int n) else Raise digits_error.

(** ** The PDF codec (pypdf), as far as the tool looks at it *)

Module pypdf.

(** A page: what [page.extract_text()] yields, and the fault, if
    any, that [PdfWriter.add_page] raises on it. *)
Record PageObject := mkPage {
  extract_text : outcome string;
  add_page_fault : option exn
}.

(** An opened reader: [reader.pages.__len__()] and [reader.pages[i]]. *)
Record PdfReader := mkReader {
  pages_dunder_len : outcome Z;
  pages_getitem : Z -> outcome PageObject
}.

(** [len(reader.pages)]: the builtin [len] takes from [__len__] an
    [int] that is not negative and fits an index. *)
Definition pages_len (reader : PdfReader) : outcome Z :=
  match pages_dunder_len reader with
  | Ok n =>
      if n <? 0
      then Raise (Exception "ValueError" "__len__() should return >= 0")
      else if Py.maxsize <? n
           then Raise (Exception "OverflowError"
                         "cannot fit 'int' into an index-sized integer")
           else Ok n
  | Raise e => Raise e
  end.

(** [l[i]] on a Python sequence, negative indices counting from the end *)
Definition list_getitem (l : list PageObject) (i : Z) : outcome PageObject :=
  let n := Z.of_nat (length l) in
  let j := if i <? 0 then i + n else i in
  if (0 <=? j) && (j <? n) then
    match l !! Z.to_nat j with
    | Some p => Ok p
    | None => Raise (Exception "IndexError" "sequence index out of range")
    end
  else Raise (Exception "IndexError" "sequence index out of range").

(** The reader of a well-formed document with the given pages. *)
Definition reader_of (l : list PageObject) : PdfReader :=
  mkReader (Ok (Z.of_nat (length l))) (list_getitem l).

End pypdf.

(** ** pydantic's report of a failed validation *)

Inductive error_type :=
| greater_than_equal (ge : Z)       (* a [Field(ge=...)] constraint *)
| value_error (msg : string).       (* [ValueError(msg)] from a field validator *)

Record ErrorDetails := mkError { loc : string; type : error_type }.

(** A validated field value, as kept in [info.data]. *)
Inductive value := VStr (s : string) | VInt (n : Z) | VBool (b : bool).

(** ** The world outside the tool

    A file is known by the path string under which the tool passes it
    to [os.path.exists], [PdfReader] or [open].  That two strings may
    name one file (another spelling of the path, a link) is not part
    of the model: what a run does to a file is stated for the string
    the run uses. *)

Inductive event :=
| Log (level msg : string)          (* logger.info / logger.error *)
| PathExists (path : string)        (* os.path.exists(path) *)
| ReaderOpen (path : string)        (* PdfReader(path) *)
| ReaderClose                       (* PdfReader.__exit__ *)
| PagesLen                          (* len(reader.pages) *)
| PagesGetitem (i : Z)              (* reader.pages[i] *)
| AddPage                           (* writer.add_page(page) *)
| ExtractText                       (* page.extract_text() *)
| OpenWb (path : string)            (* open(path, "wb") *)
| WriterWrite (path : string)       (* writer.write(f) *)
| FileClose (path : string).        (* leaving [with open(...) as f] *)

Record World := mkWorld {
  (** [str(e)] of a pydantic [ValidationError] with these errors *)
  validation_error_str : list ErrorDetails -> string;
  (** the files that exist, each with what [PdfReader] makes of it *)
  fs : gmap string (outcome pypdf.PdfReader);
  (** the fault [open(path, "wb")] raises, if any *)
  open_wb_fault : string -> option exn;
  (** the fault [writer.write(f)] raises on these pages, if any *)
  write_fault : list pypdf.PageObject -> option exn;
  (** what [PdfReader] makes of the file that such a failed write
      leaves behind *)
  write_leftover : list pypdf.PageObject -> outcome pypdf.PdfReader;
  (** the calls made so far, oldest first *)
  trace : list event
}.

(** ** The monad of the tool: state and exceptions *)

Definition M (A : Type) : Type := World -> outcome A * World.

Definition ret {A} (a : A) : M A := fun w => (Ok a, w).

Definition bind {A B} (m : M A) (k : A -> M B) : M B :=
  fun w =>
    match m w with
    | (Ok a, w') => k a w'
    | (Raise e, w') => (Raise e, w')
    end.

Definition raise {A} (e : exn) : M A := fun w => (Raise e, w).

(** [try: m  except Exception as e: h e] *)
Definition try_except {A} (m : M A) (h : exn -> M A) : M A :=
  fun w =>
    match m w with
    | (Ok a, w') => (Ok a, w')
    | (Raise e, w') => h e w'
    end.

(** [try: m  finally: f] *)
Definition try_finally {A} (m : M A) (f : M unit) : M A :=
  fun w =>
    match m w with
    | (r, w') =>
        match f w' with
        | (Ok _, w'') => (r, w'')
        | (Raise e, w'') => (Raise e, w'')
        end
    end.

#[global] Instance M_ret : MRet M := @ret.
#[global] Instance M_bind : MBind M := fun A B k m => bind m k.

(** The world after some more calls. *)
Definition add_events (evs : list event) (w : World) : World :=
  mkWorld (validation_error_str w) (fs w) (open_wb_fault w) (write_fault w)
          (write_leftover w) (trace w ++ evs).

(** The world after a file was created or replaced. *)
Definition put_file (path : string) (f : outcome pypdf.PdfReader) (w : World) : World :=
  mkWorld (validation_error_str w) (<[path := f]> (fs w)) (open_wb_fault w)
          (write_fault w) (write_leftover w) (trace w).

Definition emit (e : event) : M unit := fun w => (Ok tt, add_events [e] w).

Definition set_file (path : string) (f : outcome pypdf.PdfReader) : M unit :=
  fun w => (Ok tt, put_file path f w).

Definition lift_outcome {A} (r : outcome A) : M A := fun w => (r, w).

Definition gets {A} (f : World -> A) : M A := fun w => (Ok (f w), w).

Definition fault (o : option exn) : M unit :=
  match o with Some e => raise e | None => ret tt end.

(** ** The calls into the surroundings *)

Definition logger_error (msg : string) : M unit := emit (Log "ERROR" msg).
Definition logger_info (msg : string) : M unit := emit (Log "INFO" msg).

(** [os.path.exists(path)] *)
Definition os_path_exists (path : string) : M bool :=
  emit (PathExists path);;
  gets (fun w => bool_decide (is_Some (fs w !! path))).

(** [PdfReader(path)] *)
Definition PdfReader (path : string) : M pypdf.PdfReader :=
  emit (ReaderOpen path);;
  entry ← gets (fun w => fs w !! path);
  match entry with
  | Some r => lift_outcome r
  | None =>
      raise (Exception "FileNotFoundError"
               ("[Errno 2] No such file or directory: '" +:+ path +:+ "'"))
  end.

(** [with PdfReader(path) as reader: body] *)
Definition with_PdfReader {A} (path : string) (body : pypdf.PdfReader -> M A) : M A :=
  reader ← PdfReader path;
  try_finally (body reader) (emit ReaderClose).

(** [len(reader.pages)] *)
Definition len_pages (reader : pypdf.PdfReader) : M Z :=
  emit PagesLen;; lift_outcome (pypdf.pages_len reader).

(** [reader.pages[i]] *)
Definition pages_getitem (reader : pypdf.PdfReader) (i : Z) : M pypdf.PageObject :=
  emit (PagesGetitem i);; lift_outcome (pypdf.pages_getitem reader i).

(** [page.extract_text()] *)
Definition extract_text (page : pypdf.PageObject) : M string :=
  emit ExtractText;; lift_outcome (pypdf.extract_text page).

(** A [PdfWriter] is the list of the pages added to it. *)
Definition PdfWriter : list pypdf.PageObject := [].

(** [writer.add_page(page)] *)
Definition add_page (writer : list pypdf.PageObject) (page : pypdf.PageObject)
  : M (list pypdf.PageObject) :=
  emit AddPage;;
  fault (pypdf.add_page_fault page);;
  mret (writer ++ [page]).

(** What a reader makes of a file that was opened for writing and
    not written yet. *)
Definition empty_file : outcome pypdf.PdfReader :=
  Raise (Exception "EmptyFileError" "Cannot read an empty file").

(** [writer.write(f)]: the file holds the document, or, when the
    write raises, what the write got to. *)
Definition writer_write (path : string) (writer : list pypdf.PageObject) : M unit :=
  emit (WriterWrite path);;
  o ← gets (fun w => write_fault w writer);
  match o with
  | Some e =>
      leftover ← gets (fun w => write_leftover w writer);
      set_file path leftover;;
      raise e
  | None => set_file path (Ok (pypdf.reader_of writer))
  end.

(** [with open(path, "wb") as f: writer.write(f)]: opening truncates
    or creates the file, writing fills it, leaving closes it. *)
Definition write_pdf (path : string) (writer : list pypdf.PageObject) : M unit :=
  emit (OpenWb path);;
  o ← gets (fun w => open_wb_fault w path);
  fault o;;
  set_file path empty_file;;
  try_finally (writer_write path writer) (emit (FileClose path)).

(** ** [PDFSplitParams] *)

Record PDFSplitParams := mkParams {
  file_path : string;
  start_page : Z;
  end_page : Z;
  save_pdf : bool
}.

(** [@field_validator('end_page')]; [data] is [info.data]. *)
Definition end_page_must_be_greater_or_equal_to_start
    (v : Z) (data : gmap string value) : outcome Z :=
  let start_page := data !! "start_page" in
  match start_page with
  | Some (VInt start_page) =>
      if v <? start_page
      then Raise (Exception "ValueError"
                    "end_page must be greater than or equal to start_page")
      else Ok v
  | _ => Ok v
  end.

(** [@field_validator('file_path')] *)
Definition file_path_must_not_be_empty (v : string) : outcome string :=
  if negb (Py.truthy (Py.strip v))
  then Raise (Exception "ValueError" "file_path cannot be empty or whitespace only")
  else Ok v.

(** One field of the model: the declared constraint, then the field's
    validator; a success is recorded in [data], a failure in the list
    of errors. *)
Definition validate_field {A} (name : string) (inj : A -> value)
    (constraint : option error_type) (validator : gmap string value -> outcome A)
    (st : gmap string value * list ErrorDetails)
  : gmap string value * list ErrorDetails :=
  let '(data, errors) := st in
  match constraint with
  | Some t => (data, errors ++ [mkError name t])
  | None =>
      match validator data with
      | Ok v => (<[name := inj v]> data, errors)
      | Raise e => (data, errors ++ [mkError name (value_error (exn_str e))])
      end
  end.

(** [Field(..., ge=1)] on an [int] *)
Definition ge_constraint (bound v : Z) : option error_type :=
  if bound <=? v then None else Some (greater_than_equal bound).

(** The fields in their order of declaration. *)
Definition validate_fields (file_path : string) (start_page end_page : Z)
    (save_pdf : bool) : gmap string value * list ErrorDetails :=
  let st := (∅, []) in
  let st := validate_field "file_path" VStr None
              (fun _ => file_path_must_not_be_empty file_path) st in
  let st := validate_field "start_page" VInt (ge_constraint 1 start_page)
              (fun _ => Ok start_page) st in
  let st := validate_field "end_page" VInt (ge_constraint 1 end_page)
              (end_page_must_be_greater_or_equal_to_start end_page) st in
  validate_field "save_pdf" VBool None (fun _ => Ok save_pdf) st.

(** [PDFSplitParams(file_path=..., start_page=..., end_page=..., save_pdf=...)] *)
Definition PDFSplitParams_new (file_path : string) (start_page end_page : Z)
    (save_pdf : bool) : M PDFSplitParams :=
  match validate_fields file_path start_page end_page save_pdf with
  | (_, []) => mret (mkParams file_path start_page end_page save_pdf)
  | (_, errors) =>
      msg ← gets (fun w => validation_error_str w errors);
      raise (Exception "ValidationError" msg)
  end.

(** ** [open_and_split_pdf] *)

(** The body of the [for] loop, on the writer and [text_parts].  In
    [f"--- Page {i + 1} ---\n{page.extract_text()}"] the page number
    is formatted before the text is extracted. *)
Definition loop_body (reader : pypdf.PdfReader) (i : Z)
    (st : list pypdf.PageObject * list string)
  : M (list pypdf.PageObject * list string) :=
  let '(writer, text_parts) := st in
  p ← pages_getitem reader i;
  writer ← add_page writer p;
  page ← pages_getitem reader i;
  number ← lift_outcome (format_int (i + 1));
  text ← extract_text page;
  mret (writer, text_parts ++ ["--- Page " +:+ number +:+ " ---" +:+ Py.nl +:+ text]).

(** [for i in l: body] *)
Fixpoint for_each {S} (l : list Z) (body : Z -> S -> M S) (st : S) : M S :=
  match l with
  | [] => mret st
  | i :: l' => st' ← body i st; for_each l' body st'
  end.

(** The path of the new file. *)
Definition new_file_path (params : PDFSplitParams) : M pathlib.Path :=
  from_page ← lift_outcome (format_int (start_page params));
  to_page ← lift_outcome (format_int (end_page params));
  mret (pathlib.truediv
          (pathlib.parent (pathlib.mkPath (file_path params)))
          (pathlib.mkPath
             (pathlib.stem (pathlib.mkPath (file_path params)) +:+ "_pgs_"
              +:+ from_page +:+ "-" +:+ to_page
              +:+ pathlib.suffix (pathlib.mkPath (file_path params))))).

(** [if params.save_pdf: ...] *)
Definition save_new_pdf (params : PDFSplitParams) (writer : list pypdf.PageObject)
  : M unit :=
  if save_pdf params then
    new_file_path ← new_file_path params;
    write_pdf (pathlib.str new_file_path) writer;;
    logger_info ("Created new PDF: " +:+ pathlib.str new_file_path)
  else mret tt.

(** The body of [with PdfReader(params.file_path) as reader]. *)
Definition split_pages (params : PDFSplitParams) (reader : pypdf.PdfReader)
  : M string :=
  total_pages ← len_pages reader;
  if total_pages <? end_page params then
    requested ← lift_outcome (format_int (end_page params));
    available ← lift_outcome (format_int total_pages);
    raise (Exception "ValueError"
             ("Requested page " +:+ requested
              +:+ " exceeds the document length ("
              +:+ available +:+ " pages)."))
  else
    let writer := PdfWriter in
    let text_parts := [] in
    '(writer, text_parts) ←
      for_each (Py.range (start_page params - 1) (end_page params))
               (loop_body reader) (writer, text_parts);
    save_new_pdf params writer;;
    mret ("Content from new PDF:" +:+ Py.nl +:+ Py.nl
          +:+ Py.join Py.nl text_parts).

(** The second [try] block. *)
Definition split_body (params : PDFSplitParams) : M string :=
  found ← os_path_exists (file_path params);
  if negb found then
    logger_error ("Error: File '" +:+ file_path params +:+ "' does not exist");;
    mret ("Error: File '" +:+ file_path params +:+ "' does not exist")
  else
    with_PdfReader (file_path params) (split_pages params).

(** The handler of the second [try]. *)
Definition split_failed (params : PDFSplitParams) (e : exn) : M string :=
  logger_error ("Error reading PDF '" +:+ file_path params +:+ "': " +:+ exn_str e);;
  mret ("Error reading PDF '" +:+ file_path params +:+ "': " +:+ exn_str e).

(** What follows a successful validation: the log line, which no
    [try] covers, and the second [try] with its handler. *)
Definition split_validated (params : PDFSplitParams) : M string :=
  from_page ← lift_outcome (format_int (start_page params));
  to_page ← lift_outcome (format_int (end_page params));
  logger_info ("Splitting PDF '" +:+ file_path params +:+ "' from page "
               +:+ from_page +:+ " to " +:+ to_page +:+ "...");;
  try_except (split_body params) (split_failed params).

(** The tool.  The first [try] either binds [params] or returns from
    its handler. *)
Definition open_and_split_pdf (file_path : string) (start_page end_page : Z)
    (save_pdf : bool) : M string :=
  r ← try_except
        (params ← PDFSplitParams_new file_path start_page end_page save_pdf;
         mret (inl params))
        (fun e =>
           logger_error ("Invalid input parameters: " +:+ exn_str e);;
           mret (inr ("Error: Invalid input parameters - " +:+ exn_str e)));
  match r with
  | inr answer => mret answer
  | inl params => split_validated params
  end.

(** ** Notions used in the statements *)

(** The record of page [i + 1], whose text is [text]. *)
Definition page_record (i : Z) (text : string) : string :=
  "--- Page " +:+ Py.str_int (i + 1) +:+ " ---" +:+ Py.nl +:+ text.

(** Page [i] of the reader can be fetched, copied into the writer and
    read: it is [p] and its text is [t]. *)
Definition page_readable (reader : pypdf.PdfReader) (i : Z)
    (p : pypdf.PageObject) (t : string) : Prop :=
  pypdf.pages_getitem reader i = Ok p
  /\ pypdf.add_page_fault p = None
  /\ pypdf.extract_text p = Ok t.

(** The calls one turn of the loop makes on a readable page. *)
Definition page_events (i : Z) : list event :=
  [PagesGetitem i; AddPage; PagesGetitem i; ExtractText].

(** The path the tool derives for the new file. *)
Definition derived_path (file_path : string) (start_page end_page : Z) : string :=
  let p := pathlib.mkPath file_path in
  pathlib.str
    (pathlib.truediv (pathlib.parent p)
       (pathlib.mkPath (pathlib.stem p +:+ "_pgs_" +:+ Py.str_int start_page
                        +:+ "-" +:+ Py.str_int end_page +:+ pathlib.suffix p))).

(** What the calls of one run may be: the existence test and the
    reader on [file_path], page accesses within [lo, hi), and the
    output file at [out]. *)
Definition run_event (file_path out : string) (lo hi : Z) (ev : event) : Prop :=
  match ev with
  | PathExists q | ReaderOpen q => q = file_path
  | OpenWb q | WriterWrite q | FileClose q => q = out
  | PagesGetitem i => lo <= i < hi
  | _ => True
  end.

(** Every stage of the pipeline succeeds: the request is valid, the
    file exists and opens, the range fits the document, every page of
    the range is readable and, when the pages are to be saved, the new
    file can be opened and written. *)
Definition all_stages_succeed (w : World) (file_path : string)
    (start_page end_page : Z) (save_pdf : bool) : Prop :=
  Py.strip file_path <> "" /\ 1 <= start_page /\ start_page <= end_page
  /\ exists reader n pg tx,
      fs w !! file_path = Some (Ok reader)
      /\ pypdf.pages_len reader = Ok n
      /\ end_page <= n
      /\ (forall i, start_page - 1 <= i < end_page ->
          page_readable reader i (pg i) (tx i))
      /\ (save_pdf = true ->
          open_wb_fault w (derived_path file_path start_page end_page) = None
          /\ write_fault w (map pg (Py.range (start_page - 1) end_page)) = None).

(** The answer of a successful run. *)
Definition content (text_parts : list string) : string :=
  "Content from new PDF:" +:+ Py.nl +:+ Py.nl +:+ Py.join Py.nl text_parts.

(** The calls of a successful run. *)
Definition success_events (fp : string) (s e : Z) (sv : bool) : list event :=
  [Log "INFO" ("Splitting PDF '" +:+ fp +:+ "' from page " +:+ Py.str_int s
               +:+ " to " +:+ Py.str_int e +:+ "...");
   PathExists fp; ReaderOpen fp; PagesLen]
  ++ concat (map page_events (Py.range (s - 1) e))
  ++ (if sv then
        [OpenWb (derived_path fp s e); WriterWrite (derived_path fp s e);
         FileClose (derived_path fp s e);
         Log "INFO" ("Created new PDF: " +:+ derived_path fp s e)]
      else [])
  ++ [ReaderClose].

(** ** Sample worlds *)

Definition text_page (t : string) : pypdf.PageObject := pypdf.mkPage (Ok t) None.

Definition broken_page (msg : string) : pypdf.PageObject :=
  pypdf.mkPage (Raise (Exception "PdfReadError" msg)) None.

(** A stand-in for pydantic's rendering of a validation error. *)
Definition sample_error_str (errors : list ErrorDetails) : string :=
  Py.str_int (Z.of_nat (length errors)) +:+ " validation error(s) for PDFSplitParams: "
  +:+ Py.join ", " (map loc errors).

Definition report_pages : list pypdf.PageObject :=
  [text_page "one"; text_page "two"; text_page "three"; text_page "four";
   text_page "five"].

(** A host with one five-page document, where everything works. *)
Definition w_report : World :=
  mkWorld sample_error_str
    (<["/tmp/report.pdf" := Ok (pypdf.reader_of report_pages)]> ∅)
    (fun _ => None) (fun _ => None) (fun _ => empty_file) [].

(** The same host, where no file can be opened for writing. *)
Definition w_readonly : World :=
  mkWorld sample_error_str
    (<["/tmp/report.pdf" := Ok (pypdf.reader_of report_pages)]> ∅)
    (fun path => Some (Exception "PermissionError"
                         ("[Errno 13] Permission denied: '" +:+ path +:+ "'")))
    (fun _ => None) (fun _ => empty_file) [].

(** The same host, where the derived file of pages 2-3 already exists. *)
Definition w_taken : World :=
  mkWorld sample_error_str
    (<["/tmp/report_pgs_2-3.pdf" := Ok (pypdf.reader_of [text_page "old"])]>
       (<["/tmp/report.pdf" := Ok (pypdf.reader_of report_pages)]> ∅))
    (fun _ => None) (fun _ => None) (fun _ => empty_file) [].

(** A host whose document sits at a path with white space around it. *)
Definition w_spaced : World :=
  mkWorld sample_error_str
    (<["  docs/report.pdf " := Ok (pypdf.reader_of report_pages)]> ∅)
    (fun _ => None) (fun _ => None) (fun _ => empty_file) [].

(** Two hosts with a two-page scan: the text of the first page cannot
    be extracted in one, that of the second page in the other. *)
Definition w_scan_first : World :=
  mkWorld sample_error_str
    (<["/tmp/scan.pdf" :=
         Ok (pypdf.reader_of [broken_page "cannot decode stream"; text_page "two"])]> ∅)
    (fun _ => None) (fun _ => None) (fun _ => empty_file) [].

Definition w_scan_second : World :=
  mkWorld sample_error_str
    (<["/tmp/scan.pdf" :=
         Ok (pypdf.reader_of [text_page "one"; broken_page "cannot decode stream"])]> ∅)
    (fun _ => None) (fun _ => None) (fun _ => empty_file) [].

(** ** The outcomes of a run

    The messages the tool builds, and the ways a run can end, read
    off the two [try] blocks, the [with] block and the loop. *)

(** The line logged before the second [try]. *)
Definition splitting_info (fp : string) (s e : Z) : string :=
  "Splitting PDF '" +:+ fp +:+ "' from page " +:+ Py.str_int s +:+ " to "
  +:+ Py.str_int e +:+ "...".

(** The answer of the first handler. *)
Definition invalid_error (msg : string) : string :=
  "Error: Invalid input parameters - " +:+ msg.

(** The answer for a missing file. *)
Definition not_found_error (fp : string) : string :=
  "Error: File '" +:+ fp +:+ "' does not exist".

(** The answer of the second handler. *)
Definition reading_error (fp : string) (ex : exn) : string :=
  "Error reading PDF '" +:+ fp +:+ "': " +:+ exn_str ex.

(** The exception of the range check. *)
Definition range_error (e n : Z) : exn :=
  Exception "ValueError"
    ("Requested page " +:+ Py.str_int e +:+ " exceeds the document length ("
     +:+ Py.str_int n +:+ " pages).").

(** One turn of the loop fails on page [i] with [ex], after the calls
    [fevs]: fetching the page, copying it or extracting its text
    raises. *)
Definition page_fails (reader : pypdf.PdfReader) (i : Z) (ex : exn)
    (fevs : list event) : Prop :=
  (pypdf.pages_getitem reader i = Raise ex /\ fevs = [PagesGetitem i])
  \/ exists p,
      pypdf.pages_getitem reader i = Ok p
      /\ ((pypdf.add_page_fault p = Some ex /\ fevs = [PagesGetitem i; AddPage])
          \/ (pypdf.add_page_fault p = None
              /\ pypdf.extract_text p = Raise ex
              /\ fevs = page_events i)).

(** The ways the body of the [with] block can end on a reader: its
    result, the calls it made and the world it leaves, up to the
    trace. *)
Inductive pages_leaf (fp : string) (s e : Z) (sv : bool) (w : World)
    (reader : pypdf.PdfReader) : outcome string -> list event -> World -> Prop :=
| pl_len_failed ex :
    pypdf.pages_len reader = Raise ex ->
    pages_leaf fp s e sv w reader (Raise ex) [PagesLen] w
| pl_range_exceeded n :
    pypdf.pages_len reader = Ok n -> n < e ->
    pages_leaf fp s e sv w reader (Raise (range_error e n)) [PagesLen] w
| pl_page_failed n l1 k l2 pg tx ex fevs :
    pypdf.pages_len reader = Ok n -> e <= n ->
    Py.range (s - 1) e = l1 ++ k :: l2 ->
    (forall i, i ∈ l1 -> page_readable reader i (pg i) (tx i)) ->
    page_fails reader k ex fevs ->
    pages_leaf fp s e sv w reader (Raise ex)
      (PagesLen :: concat (map page_events l1) ++ fevs) w
| pl_done n pg tx :
    pypdf.pages_len reader = Ok n -> e <= n ->
    (forall i, s - 1 <= i < e -> page_readable reader i (pg i) (tx i)) ->
    sv = false ->
    pages_leaf fp s e sv w reader
      (Ok (content (map (fun i => page_record i (tx i)) (Py.range (s - 1) e))))
      (PagesLen :: concat (map page_events (Py.range (s - 1) e))) w
| pl_open_wb_failed n pg tx ex :
    pypdf.pages_len reader = Ok n -> e <= n ->
    (forall i, s - 1 <= i < e -> page_readable reader i (pg i) (tx i)) ->
    sv = true ->
    open_wb_fault w (derived_path fp s e) = Some ex ->
    pages_leaf fp s e sv w reader (Raise ex)
      (PagesLen :: concat (map page_events (Py.range (s - 1) e))
               ++ [OpenWb (derived_path fp s e)]) w
| pl_write_failed n pg tx ex :
    pypdf.pages_len reader = Ok n -> e <= n ->
    (forall i, s - 1 <= i < e -> page_readable reader i (pg i) (tx i)) ->
    sv = true ->
    open_wb_fault w (derived_path fp s e) = None ->
    write_fault w (map pg (Py.range (s - 1) e)) = Some ex ->
    pages_leaf fp s e sv w reader (Raise ex)
      (PagesLen :: concat (map page_events (Py.range (s - 1) e))
               ++ [OpenWb (derived_path fp s e); WriterWrite (derived_path fp s e);
                   FileClose (derived_path fp s e)])
      (put_file (derived_path fp s e)
         (write_leftover w (map pg (Py.range (s - 1) e))) w)
| pl_saved n pg tx :
    pypdf.pages_len reader = Ok n -> e <= n ->
    (forall i, s - 1 <= i < e -> page_readable reader i (pg i) (tx i)) ->
    sv = true ->
    open_wb_fault w (derived_path fp s e) = None ->
    write_fault w (map pg (Py.range (s - 1) e)) = None ->
    pages_leaf fp s e sv w reader
      (Ok (content (map (fun i => page_record i (tx i)) (Py.range (s - 1) e))))
      (PagesLen :: concat (map page_events (Py.range (s - 1) e))
               ++ [OpenWb (derived_path fp s e); WriterWrite (derived_path fp s e);
                   FileClose (derived_path fp s e);
                   Log "INFO" ("Created new PDF: " +:+ derived_path fp s e)])
      (put_file (derived_path fp s e)
         (Ok (pypdf.reader_of (map pg (Py.range (s - 1) e)))) w).

(** The ways a run of the tool can end: with an answer or with an
    exception, the calls it made and the world it leaves, up to the
    trace. *)
Inductive run_leaf (fp : string) (s e : Z) (sv : bool) (w : World)
  : outcome string -> list event -> World -> Prop :=
| leaf_invalid errors :
    snd (validate_fields fp s e sv) = errors -> errors <> [] ->
    run_leaf fp s e sv w
      (Ok (invalid_error (validation_error_str w errors)))
      [Log "ERROR" ("Invalid input parameters: " +:+ validation_error_str w errors)]
      w
| leaf_escaped :
    Py.strip fp <> "" -> 1 <= s -> s <= e ->
    Py.renders s && Py.renders e = false ->
    run_leaf fp s e sv w (Raise digits_error) [] w
| leaf_missing :
    Py.strip fp <> "" -> 1 <= s -> s <= e ->
    Py.renders s && Py.renders e = true ->
    fs w !! fp = None ->
    run_leaf fp s e sv w (Ok (not_found_error fp))
      [Log "INFO" (splitting_info fp s e); PathExists fp;
       Log "ERROR" (not_found_error fp)] w
| leaf_open_failed ex :
    Py.strip fp <> "" -> 1 <= s -> s <= e ->
    Py.renders s && Py.renders e = true ->
    fs w !! fp = Some (Raise ex) ->
    run_leaf fp s e sv w (Ok (reading_error fp ex))
      [Log "INFO" (splitting_info fp s e); PathExists fp; ReaderOpen fp;
       Log "ERROR" (reading_error fp ex)] w
| leaf_pages_ok reader answer evs w0 :
    Py.strip fp <> "" -> 1 <= s -> s <= e ->
    Py.renders s && Py.renders e = true ->
    fs w !! fp = Some (Ok reader) ->
    pages_leaf fp s e sv w reader (Ok answer) evs w0 ->
    run_leaf fp s e sv w (Ok answer)
      ([Log "INFO" (splitting_info fp s e); PathExists fp; ReaderOpen fp]
       ++ evs ++ [ReaderClose]) w0
| leaf_pages_failed reader ex evs w0 :
    Py.strip fp <> "" -> 1 <= s -> s <= e ->
    Py.renders s && Py.renders e = true ->
    fs w !! fp = Some (Ok reader) ->
    pages_leaf fp s e sv w reader (Raise ex) evs w0 ->
    run_leaf fp s e sv w (Ok (reading_error fp ex))
      ([Log "INFO" (splitting_info fp s e); PathExists fp; ReaderOpen fp]
       ++ evs ++ [ReaderClose; Log "ERROR" (reading_error fp ex)]) w0.

(** A stage after validation fails with [ex]: the codec does not open
    the file, the page count cannot be taken or is below [end_page],
    a page of the range fails (the pages before it being readable),
    or, with [save_pdf], the new file cannot be opened or written. *)
Inductive stage_fails (w : World) (fp : string) (s e : Z) (sv : bool)
  : exn -> Prop :=
| open_fails ex :
    fs w !! fp = Some (Raise ex) ->
    stage_fails w fp s e sv ex
| len_fails reader ex :
    fs w !! fp = Some (Ok reader) ->
    pypdf.pages_len reader = Raise ex ->
    stage_fails w fp s e sv ex
| range_check_fails reader n :
    fs w !! fp = Some (Ok reader) ->
    pypdf.pages_len reader = Ok n -> n < e ->
    stage_fails w fp s e sv (range_error e n)
| page_stage_fails reader n pg tx k ex fevs :
    fs w !! fp = Some (Ok reader) ->
    pypdf.pages_len reader = Ok n -> e <= n ->
    s - 1 <= k < e ->
    (forall i, s - 1 <= i < k -> page_readable reader i (pg i) (tx i)) ->
    page_fails reader k ex fevs ->
    stage_fails w fp s e sv ex
| open_wb_fails reader n pg tx ex :
    fs w !! fp = Some (Ok reader) ->
    pypdf.pages_len reader = Ok n -> e <= n ->
    (forall i, s - 1 <= i < e -> page_readable reader i (pg i) (tx i)) ->
    sv = true ->
    open_wb_fault w (derived_path fp s e) = Some ex ->
    stage_fails w fp s e sv ex
| write_fails reader n pg tx ex :
    fs w !! fp = Some (Ok reader) ->
    pypdf.pages_len reader = Ok n -> e <= n ->
    (forall i, s - 1 <= i < e -> page_readable reader i (pg i) (tx i)) ->
    sv = true ->
    open_wb_fault w (derived_path fp s e) = None ->
    write_fault w (map pg (Py.range (s - 1) e)) = Some ex ->
    stage_fails w fp s e sv ex.

(** Every character of the string is white space. *)
Fixpoint all_space (s : string) : bool :=
  match s with
  | EmptyString => true
  | String c s' => Py.isspace c && all_space s'
  end.


(** A call that creates or fills a file. *)
Definition is_write_event (ev : event) : bool :=
  match ev with
  | OpenWb _ | WriterWrite _ | FileClose _ => true
  | _ => false
  end.

(** A call on a page of the reader or on the writer's page list. *)
Definition is_page_event (ev : event) : bool :=
  match ev with
  | PagesGetitem _ | AddPage | ExtractText => true
  | _ => false
  end.

(** The string holds no [/]. *)
Fixpoint slash_free (s : string) : bool :=
  match s with
  | EmptyString => true
  | String c s' => negb (Ascii.eqb c "/") && slash_free s'
  end.

(** The string is empty or ends with [/]: what can stand before the
    last name of a path. *)
Fixpoint ends_slash (s : string) : bool :=
  match s with
  | EmptyString => true
  | String c EmptyString => Ascii.eqb c "/"
  | String _ s' => ends_slash s'
  end.

(** The name the tool gives the new file. *)
Definition new_name (fp : string) (s e : Z) : string :=
  pathlib.stem (pathlib.mkPath fp) +:+ "_pgs_" +:+ Py.str_int s +:+ "-"
  +:+ Py.str_int e +:+ pathlib.suffix (pathlib.mkPath fp).

(** A host whose file exists but is not a document the codec opens. *)
Definition w_broken : World :=
  mkWorld sample_error_str
    (<["/tmp/broken.pdf" := Raise (Exception "PdfReadError" "EOF marker not found")]> ∅)
    (fun _ => None) (fun _ => None) (fun _ => empty_file) [].

(** ** Examples *)

Example strip_ex1 : Py.strip "  a b.pdf  " = "a b.pdf".
Proof. reflexivity. Qed.
Example strip_ex2 : Py.strip (" " +:+ Py.nl +:+ String "009" EmptyString) = "".
Proof. reflexivity. Qed.
Example str_int_ex : (Py.str_int 0, Py.str_int 12, Py.str_int (-7)) = ("0", "12", "-7").
Proof. reflexivity. Qed.
Example range_ex : Py.range 1 4 = [1; 2; 3].
Proof. reflexivity. Qed.
Example format_int_ex :
  (format_int 0, format_int 12, format_int (-7)) = (Ok "0", Ok "12", Ok "-7").
Proof. reflexivity. Qed.
Example renders_ex :
  (Py.renders 0, Py.renders (-12), Py.renders Py.maxsize) = (true, true, true).
Proof. vm_compute. reflexivity. Qed.
Example pages_len_ex :
  map (fun n => pypdf.pages_len (pypdf.mkReader (Ok n) (pypdf.list_getitem [])))
      [5; -1; 2 ^ 63]
  = [Ok 5;
     Raise (Exception "ValueError" "__len__() should return >= 0");
     Raise (Exception "OverflowError" "cannot fit 'int' into an index-sized integer")].
Proof. vm_compute. reflexivity. Qed.
Example path_ex1 :
  let p := pathlib.mkPath "/tmp//docs/./report.v2.pdf" in
  (pathlib.str p, pathlib.name p, pathlib.stem p, pathlib.suffix p,
   pathlib.str (pathlib.parent p))
  = ("/tmp/docs/report.v2.pdf", "report.v2.pdf", "report.v2", ".pdf", "/tmp/docs").
Proof. reflexivity. Qed.
Example path_ex2 :
  let p := pathlib.mkPath "report" in
  (pathlib.stem p, pathlib.suffix p, pathlib.str (pathlib.parent p),
   pathlib.str (pathlib.truediv (pathlib.parent p) (pathlib.mkPath "x.pdf")))
  = ("report", "", ".", "x.pdf").
Proof. reflexivity. Qed.
Example path_ex3 :
  let p := pathlib.mkPath ".bashrc" in
  (pathlib.stem p, pathlib.suffix p) = (".bashrc", "").
Proof. reflexivity. Qed.
Example path_ex4 :
  let p := pathlib.mkPath "/a.pdf" in
  pathlib.str (pathlib.truediv (pathlib.parent p) (pathlib.mkPath "b.pdf")) = "/b.pdf".
Proof. reflexivity. Qed.

(** ** The tool on the sample worlds *)

Example report_pages_2_3 :
  fst (open_and_split_pdf "/tmp/report.pdf" 2 3 false w_report)
  = Ok ("Content from new PDF:" +:+ Py.nl +:+ Py.nl
        +:+ "--- Page 2 ---" +:+ Py.nl +:+ "two" +:+ Py.nl
        +:+ "--- Page 3 ---" +:+ Py.nl +:+ "three").
Proof. vm_compute. reflexivity. Qed.

Example report_pages_2_3_no_file :
  fs (snd (open_and_split_pdf "/tmp/report.pdf" 2 3 false w_report)) = fs w_report.
Proof. reflexivity. Qed.

Example report_pages_1_10 :
  fst (open_and_split_pdf "/tmp/report.pdf" 1 10 false w_report)
  = Ok "Error reading PDF '/tmp/report.pdf': Requested page 10 exceeds the document length (5 pages).".
Proof. vm_compute. reflexivity. Qed.

Example report_saved_trace :
  trace (snd (open_and_split_pdf "/tmp/report.pdf" 2 3 true w_report))
  = [Log "INFO" "Splitting PDF '/tmp/report.pdf' from page 2 to 3...";
     PathExists "/tmp/report.pdf"; ReaderOpen "/tmp/report.pdf"; PagesLen;
     PagesGetitem 1; AddPage; PagesGetitem 1; ExtractText;
     PagesGetitem 2; AddPage; PagesGetitem 2; ExtractText;
     OpenWb "/tmp/report_pgs_2-3.pdf"; WriterWrite "/tmp/report_pgs_2-3.pdf";
     FileClose "/tmp/report_pgs_2-3.pdf";
     Log "INFO" "Created new PDF: /tmp/report_pgs_2-3.pdf"; ReaderClose].
Proof. vm_compute. reflexivity. Qed.

Example blank_path :
  open_and_split_pdf "   " 1 1 false w_report
  = (Ok "Error: Invalid input parameters - 1 validation error(s) for PDFSplitParams: file_path",
     add_events
       [Log "ERROR" "Invalid input parameters: 1 validation error(s) for PDFSplitParams: file_path"]
       w_report).
Proof. vm_compute. reflexivity. Qed.

Example errors_are_collected :
  snd (validate_fields "  " 0 0 false)
  = [mkError "file_path" (value_error "file_path cannot be empty or whitespace only");
     mkError "start_page" (greater_than_equal 1);
     mkError "end_page" (greater_than_equal 1)].
Proof. vm_compute. reflexivity. Qed.

Example end_before_start :
  snd (validate_fields "a.pdf" 3 2 false)
  = [mkError "end_page"
       (value_error "end_page must be greater than or equal to start_page")].
Proof. vm_compute. reflexivity. Qed.

Example spaced_path_trace :
  trace (snd (open_and_split_pdf "  docs/report.pdf " 1 1 true w_spaced))
  = [Log "INFO" "Splitting PDF '  docs/report.pdf ' from page 1 to 1...";
     PathExists "  docs/report.pdf "; ReaderOpen "  docs/report.pdf "; PagesLen;
     PagesGetitem 0; AddPage; PagesGetitem 0; ExtractText;
     OpenWb "  docs/report_pgs_1-1.pdf "; WriterWrite "  docs/report_pgs_1-1.pdf ";
     FileClose "  docs/report_pgs_1-1.pdf ";
     Log "INFO" "Created new PDF:   docs/report_pgs_1-1.pdf "; ReaderClose].
Proof. vm_compute. reflexivity. Qed.

Example overwritten_file :
  fs w_taken !! "/tmp/report_pgs_2-3.pdf" = Some (Ok (pypdf.reader_of [text_page "old"]))
  /\ fst (open_and_split_pdf "/tmp/report.pdf" 2 3 true w_taken)
     = fst (open_and_split_pdf "/tmp/report.pdf" 2 3 true w_report)
  /\ fs (snd (open_and_split_pdf "/tmp/report.pdf" 2 3 true w_taken))
       !! "/tmp/report_pgs_2-3.pdf"
     = Some (Ok (pypdf.reader_of [text_page "two"; text_page "three"])).
Proof. repeat split; vm_compute; reflexivity. Qed.

Example derived_path_ex :
  map (fun fp => derived_path fp 2 3)
      ["/tmp/report.pdf"; "report.pdf"; "//a/b.pdf"; "a/b.tar.gz"; "a/.hidden";
       "a/b."; "a/"; "a/./b/../c.pdf"; "x/..pdf"]
  = ["/tmp/report_pgs_2-3.pdf"; "report_pgs_2-3.pdf"; "//a/b_pgs_2-3.pdf";
     "a/b.tar_pgs_2-3.gz"; "a/.hidden_pgs_2-3"; "a/b._pgs_2-3"; "a_pgs_2-3";
     "a/b/../c_pgs_2-3.pdf"; "x/._pgs_2-3.pdf"].
Proof. vm_compute. reflexivity. Qed.

Example path_ex5 :
  (pathlib.posix_join "/tmp/" "x.pdf", pathlib.posix_join "/tmp" "x.pdf",
   pathlib.posix_join "" "x.pdf", pathlib.posix_join "/tmp" "/x.pdf")
  = ("/tmp/x.pdf", "/tmp/x.pdf", "x.pdf", "/x.pdf").
Proof. reflexivity. Qed.

(** ** Reasoning about the monad *)

Lemma add_events_app (a b : list event) (w : World) :
  add_events b (add_events a w) = add_events (a ++ b) w.
Proof. unfold add_events; simpl. by rewrite <- app_assoc. Qed.

Lemma add_events_nil (w : World) : add_events [] w = w.
Proof. destruct w; unfold add_events; simpl. by rewrite app_nil_r. Qed.

Lemma put_file_add_events path f evs w :
  put_file path f (add_events evs w) = add_events evs (put_file path f w).
Proof. reflexivity. Qed.

Lemma bind_run {A B} (m : M A) (k : A -> M B) (w : World) :
  (m ≫= k) w =
  match m w with
  | (Ok a, w') => k a w'
  | (Raise e, w') => (Raise e, w')
  end.
Proof. reflexivity. Qed.

Lemma emit_run (e : event) (w : World) : emit e w = (Ok tt, add_events [e] w).
Proof. reflexivity. Qed.

Ltac munfold :=
  unfold mbind, M_bind, mret, M_ret, bind, ret, raise, gets, lift_outcome,
    fault, try_except, try_finally, emit, set_file,
    logger_error, logger_info in *.

(** Brings a world reached by a run into the form
    [add_events evs (put_file ... w)], with [evs] flattened. *)
Ltac world_norm :=
  rewrite ?put_file_add_events; rewrite ?add_events_app;
  repeat (rewrite <- app_assoc); cbn [app].

(** ** Integers that can be formatted *)

Lemma nb_digits_double (d : Decimal.uint) :
  (Decimal.nb_digits (Decimal.Little.double d) <= S (Decimal.nb_digits d)
   /\ Decimal.nb_digits (Decimal.Little.succ_double d) <= S (Decimal.nb_digits d))%nat.
Proof. induction d; simpl; lia. Qed.

(** A number has no more decimal digits than binary ones. *)
Lemma nb_digits_to_little_uint (p : positive) :
  (Decimal.nb_digits (Pos.to_little_uint p) <= Pos.size_nat p)%nat.
Proof.
  induction p as [p IH|p IH|]; simpl; [| |lia].
  - pose proof (proj2 (nb_digits_double (Pos.to_little_uint p))). lia.
  - pose proof (proj1 (nb_digits_double (Pos.to_little_uint p))). lia.
Qed.

Lemma length_string_of_uint (d : Decimal.uint) :
  String.length (NilEmpty.string_of_uint d) = Decimal.nb_digits d.
Proof. induction d; simpl; congruence. Qed.

Lemma length_str_int_pos (p : positive) :
  (String.length (Py.str_int (Z.pos p)) <= Pos.size_nat p)%nat.
Proof.
  unfold Py.str_int. cbn [Z.to_int NilZero.string_of_int].
  pose proof (nb_digits_to_little_uint p) as H.
  unfold NilZero.string_of_uint, Pos.to_uint.
  rewrite <- nb_digits_rev in H.
  assert (1 <= Pos.size_nat p)%nat as H1 by (destruct p; simpl; lia).
  destruct (Decimal.rev (Pos.to_little_uint p));
    [exact H1|by rewrite length_string_of_uint..].
Qed.

(** Every index-sized integer that is not negative can be formatted. *)
Lemma renders_maxsize (n : Z) : 0 <= n <= Py.maxsize -> Py.renders n = true.
Proof.
  intros Hn. unfold Py.renders.
  destruct n as [|p|p]; [reflexivity| |lia].
  apply Nat.leb_le. cbn [Z.abs]. etransitivity; [apply length_str_int_pos|].
  assert (p < 2 ^ 63)%positive as Hp by (unfold Py.maxsize in Hn; lia).
  apply Pos.size_nat_monotone in Hp.
  etransitivity; [exact Hp|]. apply Nat.leb_le. by vm_compute.
Qed.

Lemma nb_digits_le_length (p : positive) :
  (Decimal.nb_digits (Pos.to_uint p) <= String.length (Py.str_int (Z.pos p)))%nat.
Proof.
  unfold Py.str_int. cbn [Z.to_int NilZero.string_of_int].
  unfold NilZero.string_of_uint.
  destruct (Pos.to_uint p); rewrite ?length_string_of_uint; simpl; lia.
Qed.

(** A number of [k] decimal digits is below [10 ^ k]. *)
Lemma of_lu_lt (d : Decimal.uint) :
  (DecimalPos.Unsigned.of_lu d < 10 ^ N.of_nat (Decimal.nb_digits d))%N.
Proof.
  induction d; cbn [DecimalPos.Unsigned.of_lu Decimal.nb_digits];
    rewrite ?Nat2N.inj_succ, ?N.pow_succ_r'; lia.
Qed.

Lemma pos_lt_pow_digits (p : positive) :
  Z.pos p < 10 ^ Z.of_nat (Decimal.nb_digits (Pos.to_uint p)).
Proof.
  pose proof (of_lu_lt (Decimal.rev (Pos.to_uint p))) as H.
  rewrite <- DecimalPos.Unsigned.of_uint_alt, DecimalPos.Unsigned.of_to in H.
  rewrite nb_digits_rev in H.
  apply N2Z.inj_lt in H. rewrite N2Z.inj_pow, nat_N_Z in H. exact H.
Qed.

(** A number that can be formatted is below [10 ^ 4300] in absolute
    value. *)
Lemma renders_lt (n : Z) : Py.renders n = true -> Z.abs n < 10 ^ 4300.
Proof.
  intros Hn. unfold Py.renders in Hn. apply Nat.leb_le in Hn.
  change 4300 with (Z.of_nat Py.int_max_str_digits).
  assert (forall p, (String.length (Py.str_int (Z.pos p)) <= Py.int_max_str_digits)%nat ->
                    Z.pos p < 10 ^ Z.of_nat Py.int_max_str_digits) as Hp.
  { intros p Hlen. pose proof (nb_digits_le_length p) as Hd.
    eapply Z.lt_le_trans; [apply pos_lt_pow_digits|].
    apply Z.pow_le_mono_r; lia. }
  destruct n as [|p|p]; cbn [Z.abs] in *; [|by apply Hp..].
  apply Z.pow_pos_nonneg; lia.
Qed.

(** A number from [10 ^ 4300] on cannot be formatted. *)
Lemma renders_limit (n : Z) : 10 ^ 4300 <= n -> Py.renders n = false.
Proof.
  intros Hn. destruct (Py.renders n) eqn:Hr; [|done].
  apply renders_lt in Hr. revert Hn Hr.
  change 4300 with (Z.of_nat Py.int_max_str_digits).
  generalize (10 ^ Z.of_nat Py.int_max_str_digits). lia.
Qed.

Lemma limit_ge_10 : 10 <= 10 ^ 4300.
Proof. exact (Z.pow_le_mono_r 10 1 4300 eq_refl ltac:(discriminate)). Qed.

Lemma below_limit (n : Z) : n < 10 -> n < 10 ^ 4300.
Proof. pose proof limit_ge_10 as H. revert H. generalize (10 ^ 4300). lia. Qed.

Lemma limit_le_succ : 10 ^ 4300 <= 10 ^ 4300 + 1.
Proof. generalize (10 ^ 4300). lia. Qed.

Lemma format_int_renders (n : Z) :
  Py.renders n = true -> format_int n = Ok (Py.str_int n).
Proof. unfold format_int. by intros ->. Qed.

Lemma format_int_escapes (n : Z) :
  Py.renders n = false -> format_int n = Raise digits_error.
Proof. unfold format_int. by intros ->. Qed.

(** A page count is an index-sized integer that is not negative. *)
Lemma pages_len_bounds reader n :
  pypdf.pages_len reader = Ok n -> 0 <= n <= Py.maxsize.
Proof.
  unfold pypdf.pages_len.
  destruct (pypdf.pages_dunder_len reader) as [m|ex]; [|discriminate].
  destruct (Z.ltb_spec m 0); [discriminate|].
  destruct (Z.ltb_spec Py.maxsize m); [discriminate|]. intros [= <-]. lia.
Qed.

(** A number from 0 to the page count can be formatted. *)
Lemma renders_page reader n (i : Z) :
  pypdf.pages_len reader = Ok n -> 0 <= i <= n -> Py.renders i = true.
Proof.
  intros Hlen%pages_len_bounds Hi. apply renders_maxsize. lia.
Qed.

Lemma pages_len_reader_of (l : list pypdf.PageObject) :
  Z.of_nat (length l) <= Py.maxsize ->
  pypdf.pages_len (pypdf.reader_of l) = Ok (Z.of_nat (length l)).
Proof.
  intros Hl. unfold pypdf.pages_len, pypdf.reader_of. cbn [pypdf.pages_dunder_len].
  destruct (Z.ltb_spec (Z.of_nat (length l)) 0); [lia|].
  destruct (Z.ltb_spec Py.maxsize (Z.of_nat (length l))); [lia|]. done.
Qed.

(** ** The loop *)

Lemma loop_body_run reader i wr tp w :
  Py.renders (i + 1) = true ->
  loop_body reader i (wr, tp) w =
  match pypdf.pages_getitem reader i with
  | Raise ex => (Raise ex, add_events [PagesGetitem i] w)
  | Ok p =>
      match pypdf.add_page_fault p with
      | Some ex => (Raise ex, add_events [PagesGetitem i; AddPage] w)
      | None =>
          match pypdf.extract_text p with
          | Raise ex => (Raise ex, add_events (page_events i) w)
          | Ok t => (Ok (wr ++ [p], tp ++ [page_record i t]),
                     add_events (page_events i) w)
          end
      end
  end.
Proof.
  intros Hi.
  unfold loop_body, pages_getitem, add_page, extract_text, page_events, page_record.
  rewrite (format_int_renders _ Hi). munfold.
  destruct (pypdf.pages_getitem reader i) as [p|ex]; simpl; [|done].
  destruct (pypdf.add_page_fault p) as [ex|]; simpl.
  { by rewrite add_events_app. }
  destruct (pypdf.extract_text p) as [t|ex]; simpl;
    by rewrite !add_events_app.
Qed.

Lemma for_each_cons {S} i l (body : Z -> S -> M S) st w :
  for_each (i :: l) body st w =
  match body i st w with
  | (Ok st', w') => for_each l body st' w'
  | (Raise e, w') => (Raise e, w')
  end.
Proof. reflexivity. Qed.

(** On readable pages the loop copies every page and records every
    text, in the order of the indices. *)
Lemma for_each_readable reader (pg : Z -> pypdf.PageObject) (tx : Z -> string) l :
  forall wr tp w,
    (forall i, i ∈ l -> Py.renders (i + 1) = true) ->
    (forall i, i ∈ l -> page_readable reader i (pg i) (tx i)) ->
    for_each l (loop_body reader) (wr, tp) w =
    (Ok (wr ++ map pg l, tp ++ map (fun i => page_record i (tx i)) l),
     add_events (concat (map page_events l)) w).
Proof.
  induction l as [|i l IH]; intros wr tp w Hr Hl.
  - simpl. by rewrite !app_nil_r, add_events_nil.
  - rewrite for_each_cons, loop_body_run by (apply Hr; by left).
    destruct (Hl i) as (-> & Hadd & ->); [by left|]. rewrite Hadd.
    rewrite IH by (intros j Hj; first [apply Hr; by right|apply Hl; by right]).
    rewrite add_events_app. simpl. by rewrite <- !app_assoc.
Qed.

(** A page that fails stops the loop with its exception, after the
    calls made on the pages before it and on itself. *)
Lemma for_each_fails reader (pg : Z -> pypdf.PageObject) (tx : Z -> string)
    l1 k l2 ex fevs :
  forall wr tp w,
    (forall i, i ∈ l1 ++ k :: l2 -> Py.renders (i + 1) = true) ->
    (forall i, i ∈ l1 -> page_readable reader i (pg i) (tx i)) ->
    page_fails reader k ex fevs ->
    for_each (l1 ++ k :: l2) (loop_body reader) (wr, tp) w =
    (Raise ex, add_events (concat (map page_events l1) ++ fevs) w).
Proof.
  induction l1 as [|i l1 IH]; intros wr tp w Hr Hl Hk.
  - simpl app. rewrite for_each_cons, loop_body_run by (apply Hr; by left).
    destruct Hk as [[-> ->]|(p & -> & [[-> ->]|(-> & -> & ->)])]; reflexivity.
  - simpl app. rewrite for_each_cons, loop_body_run by (apply Hr; by left).
    destruct (Hl i) as (-> & Hadd & ->); [by left|]. rewrite Hadd.
    rewrite IH by (try done; intros j Hj; first [apply Hr; by right|apply Hl; by right]).
    rewrite add_events_app. by simpl.
Qed.

(** The pages of a list of indices are all readable, or there is a
    first one that fails. *)
Lemma readable_or_fails reader (l : list Z) :
  (exists pg tx, forall i, i ∈ l -> page_readable reader i (pg i) (tx i))
  \/ (exists l1 k l2 pg tx ex fevs,
        l = l1 ++ k :: l2
        /\ (forall i, i ∈ l1 -> page_readable reader i (pg i) (tx i))
        /\ page_fails reader k ex fevs).
Proof.
  induction l as [|i l IH].
  - left. exists (fun _ => pypdf.mkPage (Ok "") None), (fun _ => "").
    intros i Hi. by apply elem_of_nil in Hi.
  - assert ((exists p t, page_readable reader i p t)
            \/ exists ex fevs, page_fails reader i ex fevs) as [(p & t & Hi)|(ex & fevs & Hi)].
    { unfold page_readable, page_fails.
      destruct (pypdf.pages_getitem reader i) as [p|ex].
      2:{ right. exists ex, [PagesGetitem i]. by left. }
      destruct (pypdf.add_page_fault p) as [ex|] eqn:Hadd.
      { right. exists ex, [PagesGetitem i; AddPage]. right. exists p. eauto. }
      destruct (pypdf.extract_text p) as [t|ex] eqn:Htxt.
      - left. by exists p, t.
      - right. exists ex, (page_events i). right. exists p. split; [done|].
        right. done. }
    2:{ right. exists [], i, l, (fun _ => pypdf.mkPage (Ok "") None), (fun _ => ""), ex, fevs.
        split; [done|]. split; [|done]. intros j Hj. by apply elem_of_nil in Hj. }
    destruct IH as [(pg & tx & Hl)|(l1 & k & l2 & pg & tx & ex & fevs & -> & Hl1 & Hk)].
    + left. exists (fun j => if decide (j = i) then p else pg j),
                   (fun j => if decide (j = i) then t else tx j).
      intros j Hj. case_decide as Hji; [by subst|].
      apply Hl. apply elem_of_cons in Hj. by destruct Hj.
    + right. exists (i :: l1), k, l2,
               (fun j => if decide (j = i) then p else pg j),
               (fun j => if decide (j = i) then t else tx j), ex, fevs.
      split; [done|]. split; [|done].
      intros j Hj. case_decide as Hji; [by subst|].
      apply Hl1. apply elem_of_cons in Hj. by destruct Hj.
Qed.

(** ** Validation *)

Lemma truthy_strip (v : string) : Py.truthy (Py.strip v) = true <-> Py.strip v <> "".
Proof. destruct (Py.strip v); simpl; split; congruence. Qed.

Lemma validate_fields_valid fp s e sv :
  Py.strip fp <> "" -> 1 <= s -> s <= e ->
  snd (validate_fields fp s e sv) = [].
Proof.
  intros Hfp Hs He. apply truthy_strip in Hfp.
  unfold validate_fields, validate_field, file_path_must_not_be_empty,
    ge_constraint, end_page_must_be_greater_or_equal_to_start.
  rewrite Hfp. simpl.
  destruct (Z.leb_spec 1 s); [|lia].
  destruct (Z.leb_spec 1 e); [|lia].
  rewrite lookup_insert_eq.
  destruct (Z.ltb_spec e s); [lia|]. done.
Qed.

Lemma validate_fields_invalid fp s e sv :
  Py.strip fp = "" \/ s < 1 \/ e < 1 \/ e < s ->
  snd (validate_fields fp s e sv) <> [].
Proof.
  intros H.
  unfold validate_fields, validate_field, file_path_must_not_be_empty,
    ge_constraint, end_page_must_be_greater_or_equal_to_start.
  destruct (Py.truthy (Py.strip fp)) eqn:Hfp; simpl;
    destruct (Z.leb_spec 1 s); destruct (Z.leb_spec 1 e);
    rewrite ?lookup_insert_eq; try destruct (Z.ltb_spec e s); simpl;
    try (intros Hnil; by apply app_eq_nil in Hnil as [_ ?]);
    try discriminate.
  apply truthy_strip in Hfp. destruct H as [?|?]; [done|lia].
Qed.

Lemma PDFSplitParams_new_valid fp s e sv w :
  Py.strip fp <> "" -> 1 <= s -> s <= e ->
  PDFSplitParams_new fp s e sv w = (Ok (mkParams fp s e sv), w).
Proof.
  intros Hfp Hs He. unfold PDFSplitParams_new.
  pose proof (validate_fields_valid fp s e sv Hfp Hs He) as Hv.
  destruct (validate_fields fp s e sv) as [data errors]. simpl in Hv.
  by subst.
Qed.

Lemma PDFSplitParams_new_invalid fp s e sv w :
  Py.strip fp = "" \/ s < 1 \/ e < 1 \/ e < s ->
  exists errors,
    errors <> []
    /\ PDFSplitParams_new fp s e sv w =
       (Raise (Exception "ValidationError" (validation_error_str w errors)), w).
Proof.
  intros H. unfold PDFSplitParams_new.
  pose proof (validate_fields_invalid fp s e sv H) as Hv.
  destruct (validate_fields fp s e sv) as [data [|err errors]]; [done|].
  by exists (err :: errors).
Qed.

(** A request is either valid or violates one of the four rules. *)
Lemma valid_or_invalid fp s e :
  (Py.strip fp <> "" /\ 1 <= s /\ s <= e)
  \/ (Py.strip fp = "" \/ s < 1 \/ e < 1 \/ e < s).
Proof.
  destruct (decide (Py.strip fp = "")); [by right; left|].
  destruct (Z.le_gt_cases 1 s); [|right; right; left; lia].
  destruct (Z.le_gt_cases s e); [by left|]. right. right. right. right. lia.
Qed.

(** The tool on a request that fails validation. *)
Lemma open_and_split_pdf_invalid fp s e sv w :
  Py.strip fp = "" \/ s < 1 \/ e < 1 \/ e < s ->
  exists errors,
    errors <> []
    /\ open_and_split_pdf fp s e sv w =
       (Ok ("Error: Invalid input parameters - " +:+ validation_error_str w errors),
        add_events [Log "ERROR" ("Invalid input parameters: "
                                 +:+ validation_error_str w errors)] w).
Proof.
  intros H. destruct (PDFSplitParams_new_invalid fp s e sv w H) as (errors & Hne & Hnew).
  exists errors. split; [done|].
  unfold open_and_split_pdf. rewrite bind_run.
  unfold try_except at 1. rewrite bind_run, Hnew. reflexivity.
Qed.

(** The tool on a valid request: the second [try] runs. *)
Lemma open_and_split_pdf_valid fp s e sv w :
  Py.strip fp <> "" -> 1 <= s -> s <= e ->
  open_and_split_pdf fp s e sv w = split_validated (mkParams fp s e sv) w.
Proof.
  intros Hfp Hs He. unfold open_and_split_pdf. rewrite bind_run.
  unfold try_except at 1. rewrite bind_run, PDFSplitParams_new_valid by done.
  reflexivity.
Qed.

(** ** The stages of the tool, run on a world *)

Lemma put_file_put_file path f g w :
  put_file path g (put_file path f w) = put_file path g w.
Proof. unfold put_file; simpl. by rewrite insert_insert_eq. Qed.

Lemma write_pdf_run path writer w :
  write_pdf path writer w =
  match open_wb_fault w path with
  | Some ex => (Raise ex, add_events [OpenWb path] w)
  | None =>
      match write_fault w writer with
      | Some ex =>
          (Raise ex, add_events [OpenWb path; WriterWrite path; FileClose path]
                       (put_file path (write_leftover w writer) w))
      | None =>
          (Ok tt, add_events [OpenWb path; WriterWrite path; FileClose path]
                    (put_file path (Ok (pypdf.reader_of writer)) w))
      end
  end.
Proof.
  unfold write_pdf, writer_write. munfold. simpl.
  destruct (open_wb_fault w path) as [ex|]; simpl; [done|].
  destruct (write_fault w writer) as [ex|]; simpl;
    by rewrite !put_file_add_events, put_file_put_file, !add_events_app.
Qed.

Lemma save_new_pdf_run fp s e sv writer w :
  Py.renders s = true -> Py.renders e = true ->
  save_new_pdf (mkParams fp s e sv) writer w =
  if sv then
    match write_pdf (derived_path fp s e) writer w with
    | (Ok _, w') =>
        (Ok tt, add_events [Log "INFO" ("Created new PDF: " +:+ derived_path fp s e)] w')
    | (Raise ex, w') => (Raise ex, w')
    end
  else (Ok tt, w).
Proof.
  intros Hs He. unfold save_new_pdf, new_file_path.
  cbn [save_pdf start_page end_page file_path]. destruct sv; [|done].
  rewrite (format_int_renders _ Hs), (format_int_renders _ He).
  unfold lift_outcome, derived_path, mbind, M_bind, bind, mret, M_ret, ret.
  by destruct (write_pdf _ writer w) as [[[]|ex] w'].
Qed.

Lemma split_pages_run fp s e sv reader w :
  Py.renders e = true ->
  split_pages (mkParams fp s e sv) reader w =
  match pypdf.pages_len reader with
  | Raise ex => (Raise ex, add_events [PagesLen] w)
  | Ok n =>
      if n <? e then (Raise (range_error e n), add_events [PagesLen] w)
      else
        match for_each (Py.range (s - 1) e) (loop_body reader) ([], [])
                (add_events [PagesLen] w) with
        | (Raise ex, w') => (Raise ex, w')
        | (Ok (writer, text_parts), w') =>
            match save_new_pdf (mkParams fp s e sv) writer w' with
            | (Raise ex, w'') => (Raise ex, w'')
            | (Ok _, w'') => (Ok (content text_parts), w'')
            end
        end
  end.
Proof.
  intros He. unfold split_pages, len_pages. rewrite !bind_run, emit_run.
  unfold lift_outcome. cbn [end_page start_page].
  destruct (pypdf.pages_len reader) as [n|ex] eqn:Hlen; [|done].
  destruct (n <? e).
  { rewrite (format_int_renders _ He).
    rewrite (format_int_renders n)
      by (apply (renders_page reader n); [done|apply pages_len_bounds in Hlen; lia]).
    reflexivity. }
  rewrite bind_run. unfold PdfWriter.
  destruct (for_each _ _ _ _) as [[[writer text_parts]|ex] w']; [|done].
  rewrite bind_run.
  by destruct (save_new_pdf _ _ _) as [[[]|ex] w''].
Qed.

Lemma split_body_run fp s e sv w :
  split_body (mkParams fp s e sv) w =
  match fs w !! fp with
  | None =>
      (Ok (not_found_error fp),
       add_events [PathExists fp; Log "ERROR" (not_found_error fp)] w)
  | Some (Raise ex) => (Raise ex, add_events [PathExists fp; ReaderOpen fp] w)
  | Some (Ok reader) =>
      match split_pages (mkParams fp s e sv) reader
              (add_events [PathExists fp; ReaderOpen fp] w) with
      | (r, w') => (r, add_events [ReaderClose] w')
      end
  end.
Proof.
  unfold split_body, os_path_exists, with_PdfReader, PdfReader.
  cbn [file_path]. munfold. simpl.
  destruct (fs w !! fp) as [[reader|ex]|] eqn:Hfs; simpl.
  - rewrite Hfs, add_events_app. simpl. by destruct (split_pages _ _ _).
  - by rewrite Hfs, add_events_app.
  - by rewrite add_events_app.
Qed.

(** After validation, when both page numbers can be formatted: the
    line is logged and the second [try] runs, its handler turning an
    exception into an answer. *)
Lemma split_validated_run fp s e sv w :
  Py.renders s = true -> Py.renders e = true ->
  split_validated (mkParams fp s e sv) w =
  match split_body (mkParams fp s e sv)
          (add_events [Log "INFO" (splitting_info fp s e)] w) with
  | (Ok answer, w') => (Ok answer, w')
  | (Raise ex, w') =>
      (Ok (reading_error fp ex), add_events [Log "ERROR" (reading_error fp ex)] w')
  end.
Proof.
  intros Hs He. unfold split_validated. cbn [start_page end_page file_path].
  rewrite (format_int_renders _ Hs), (format_int_renders _ He). reflexivity.
Qed.

(** After validation, when a page number cannot be formatted: the
    exception of the log line leaves the tool, before any call. *)
Lemma split_validated_escapes fp s e sv w :
  Py.renders s && Py.renders e = false ->
  split_validated (mkParams fp s e sv) w = (Raise digits_error, w).
Proof.
  intros Hse. unfold split_validated. cbn [start_page end_page file_path].
  destruct (Py.renders s) eqn:Hs.
  - cbn [andb] in Hse.
    by rewrite (format_int_renders _ Hs), (format_int_escapes _ Hse).
  - by rewrite (format_int_escapes _ Hs).
Qed.

(** ** Ranges *)

Lemma elem_of_range a b i : i ∈ Py.range a b <-> a <= i < b.
Proof.
  unfold Py.range. rewrite list_elem_of_In, in_map_iff. split.
  - intros (k & <- & Hk%in_seq). lia.
  - intros H. exists (Z.to_nat (i - a)). split; [lia|]. apply in_seq. lia.
Qed.

Lemma length_range a b : Z.of_nat (length (Py.range a b)) = Z.max 0 (b - a).
Proof. unfold Py.range. rewrite length_map, length_seq. lia. Qed.

Lemma lookup_range a b (j : nat) :
  Z.of_nat j < b - a -> Py.range a b !! j = Some (a + Z.of_nat j).
Proof.
  intros H. unfold Py.range. rewrite list_lookup_fmap.
  rewrite lookup_seq_lt by lia. reflexivity.
Qed.

Lemma map_range_succ {A} (f : Z -> A) a b :
  map (fun i => f (i + 1)) (Py.range (a - 1) b) = map f (Py.range a (b + 1)).
Proof.
  unfold Py.range. rewrite !map_map.
  replace (b + 1 - a) with (b - (a - 1)) by lia.
  apply map_ext. intros k. f_equal. lia.
Qed.

Lemma range_cons a b : a < b -> Py.range a b = a :: Py.range (a + 1) b.
Proof.
  intros H. unfold Py.range.
  replace (Z.to_nat (b - a)) with (S (Z.to_nat (b - (a + 1)))) by lia.
  cbn [seq map]. f_equal; [lia|].
  rewrite <- seq_shift, map_map. apply map_ext. intros i. lia.
Qed.

Lemma range_split a k b :
  a <= k < b -> Py.range a b = Py.range a k ++ k :: Py.range (k + 1) b.
Proof.
  intros H. remember (Z.to_nat (k - a)) as m eqn:Hm.
  revert a H Hm. induction m as [|m IH]; intros a H Hm.
  - assert (a = k) as -> by lia. rewrite (range_cons k b) by lia.
    unfold Py.range at 2. by replace (Z.to_nat (k - k)) with 0%nat by lia.
  - rewrite (range_cons a b), (range_cons a k) by lia.
    rewrite (IH (a + 1)) by lia. reflexivity.
Qed.

(** The page numbers of a range that fits the document can be
    formatted. *)
Lemma range_renders reader n s e :
  pypdf.pages_len reader = Ok n -> 1 <= s -> e <= n ->
  forall i, i ∈ Py.range (s - 1) e -> Py.renders (i + 1) = true.
Proof.
  intros Hlen Hs Hn i Hi%elem_of_range.
  apply (renders_page reader n); [done|lia].
Qed.

(** ** Answers *)

Lemma startswith_app (p s : string) : Py.startswith p (p +:+ s) = true.
Proof.
  unfold Py.startswith. induction p as [|c p IH].
  - by destruct s.
  - change (String c p +:+ s) with (String c (p +:+ s)). cbn [String.prefix].
    destruct (ascii_dec c c); [exact IH|done].
Qed.

Lemma startswith_Error_Content (a : string) :
  Py.startswith "Error" a = true -> Py.startswith "Content from new PDF:" a = true -> False.
Proof.
  unfold Py.startswith. destruct a as [|c a]; cbn [String.prefix]; [done|].
  destruct (ascii_dec "E" c) as [<-|]; [|done]. intros _.
  destruct (ascii_dec "C" "E"); done.
Qed.

Lemma content_startswith (text_parts : list string) :
  Py.startswith "Content from new PDF:" (content text_parts) = true.
Proof. apply startswith_app. Qed.

(** ** The outcomes of a run, proved *)

Lemma PDFSplitParams_new_errors fp s e sv w errors :
  snd (validate_fields fp s e sv) = errors -> errors <> [] ->
  PDFSplitParams_new fp s e sv w =
  (Raise (Exception "ValidationError" (validation_error_str w errors)), w).
Proof.
  intros Herr Hne. unfold PDFSplitParams_new.
  destruct (validate_fields fp s e sv) as [data errs]. simpl in Herr. subst errs.
  by destruct errors.
Qed.

(** A leaf of the [with] block is what its body does, in any world
    that differs from [w] by earlier calls only. *)
Lemma pages_leaf_sound fp s e sv w reader r evs w0 :
  1 <= s -> Py.renders s = true -> Py.renders e = true ->
  pages_leaf fp s e sv w reader r evs w0 ->
  forall evs0,
    split_pages (mkParams fp s e sv) reader (add_events evs0 w)
    = (r, add_events (evs0 ++ evs) w0).
Proof.
  intros Hs Hrs Hre Hleaf evs0. rewrite split_pages_run by done.
  destruct Hleaf as [ex Hlen|n Hlen Hn|n l1 k l2 pg tx ex fevs Hlen Hn Hl Hl1 Hk
                    |n pg tx Hlen Hn Hpages ->|n pg tx ex Hlen Hn Hpages -> Hopen
                    |n pg tx ex Hlen Hn Hpages -> Hopen Hwrite
                    |n pg tx Hlen Hn Hpages -> Hopen Hwrite];
    rewrite Hlen.
  - by world_norm.
  - destruct (Z.ltb_spec n e); [|lia]. by world_norm.
  - destruct (Z.ltb_spec n e); [lia|].
    pose proof (range_renders reader n s e Hlen Hs Hn) as Hr.
    rewrite Hl in Hr |- *.
    rewrite (for_each_fails reader pg tx l1 k l2 ex fevs) by done.
    by world_norm.
  - destruct (Z.ltb_spec n e); [lia|].
    rewrite (for_each_readable reader pg tx)
      by first [by eapply range_renders
               |intros i Hi; apply Hpages; by apply elem_of_range].
    rewrite save_new_pdf_run by done. by world_norm.
  - destruct (Z.ltb_spec n e); [lia|].
    rewrite (for_each_readable reader pg tx)
      by first [by eapply range_renders
               |intros i Hi; apply Hpages; by apply elem_of_range].
    rewrite save_new_pdf_run, write_pdf_run by done.
    cbn [open_wb_fault write_fault write_leftover add_events app].
    rewrite Hopen. by world_norm.
  - destruct (Z.ltb_spec n e); [lia|].
    rewrite (for_each_readable reader pg tx)
      by first [by eapply range_renders
               |intros i Hi; apply Hpages; by apply elem_of_range].
    rewrite save_new_pdf_run, write_pdf_run by done.
    cbn [open_wb_fault write_fault write_leftover add_events app].
    rewrite Hopen, Hwrite. by world_norm.
  - destruct (Z.ltb_spec n e); [lia|].
    rewrite (for_each_readable reader pg tx)
      by first [by eapply range_renders
               |intros i Hi; apply Hpages; by apply elem_of_range].
    rewrite save_new_pdf_run, write_pdf_run by done.
    cbn [open_wb_fault write_fault write_leftover add_events app].
    rewrite Hopen, Hwrite. by world_norm.
Qed.

(** The body of the [with] block always ends in one of its leaves. *)
Lemma pages_leaf_complete fp s e sv w reader :
  exists r evs w0, pages_leaf fp s e sv w reader r evs w0.
Proof.
  destruct (pypdf.pages_len reader) as [n|ex] eqn:Hlen.
  2:{ eexists _, _, _. by apply pl_len_failed. }
  destruct (Z.lt_ge_cases n e) as [Hn|Hn].
  { eexists _, _, _. by eapply pl_range_exceeded. }
  destruct (readable_or_fails reader (Py.range (s - 1) e))
    as [(pg & tx & Hl)|(l1 & k & l2 & pg & tx & ex & fevs & Hl & Hl1 & Hk)].
  2:{ eexists _, _, _. by eapply pl_page_failed. }
  assert (forall i, s - 1 <= i < e -> page_readable reader i (pg i) (tx i)) as Hpages
    by (intros i Hi; apply Hl; by apply elem_of_range).
  destruct sv.
  2:{ eexists _, _, _. by eapply pl_done. }
  destruct (open_wb_fault w (derived_path fp s e)) as [ex|] eqn:Hopen.
  { eexists _, _, _. by eapply pl_open_wb_failed. }
  destruct (write_fault w (map pg (Py.range (s - 1) e))) as [ex|] eqn:Hwrite.
  { eexists _, _, _. by eapply pl_write_failed. }
  eexists _, _, _. by eapply pl_saved.
Qed.

(** A leaf of the tool is what the tool does, in any world that
    differs from [w] by earlier calls only. *)
Lemma run_leaf_sound fp s e sv w r evs w0 :
  run_leaf fp s e sv w r evs w0 ->
  forall evs0,
    open_and_split_pdf fp s e sv (add_events evs0 w)
    = (r, add_events (evs0 ++ evs) w0).
Proof.
  intros Hleaf evs0.
  destruct Hleaf as [errors Herr Hne|Hfp Hs He Hr|Hfp Hs He Hr Hfs
                    |ex Hfp Hs He Hr Hfs
                    |reader answer evs w0 Hfp Hs He Hr Hfs Hpages
                    |reader ex evs w0 Hfp Hs He Hr Hfs Hpages];
    try (apply andb_prop in Hr as [Hrs Hre]).
  - unfold open_and_split_pdf. rewrite bind_run.
    unfold try_except at 1. rewrite bind_run.
    rewrite (PDFSplitParams_new_errors fp s e sv _ errors) by done.
    cbn [validation_error_str add_events]. munfold. cbn. by world_norm.
  - rewrite open_and_split_pdf_valid, split_validated_escapes by done.
    by rewrite app_nil_r.
  - rewrite open_and_split_pdf_valid, split_validated_run, split_body_run by done.
    cbn [fs add_events]. rewrite Hfs. by world_norm.
  - rewrite open_and_split_pdf_valid, split_validated_run, split_body_run by done.
    cbn [fs add_events]. rewrite Hfs. by world_norm.
  - rewrite open_and_split_pdf_valid, split_validated_run, split_body_run by done.
    cbn [fs add_events]. rewrite Hfs. rewrite !add_events_app.
    rewrite (pages_leaf_sound _ _ _ _ _ _ _ _ _ Hs Hrs Hre Hpages). by world_norm.
  - rewrite open_and_split_pdf_valid, split_validated_run, split_body_run by done.
    cbn [fs add_events]. rewrite Hfs. rewrite !add_events_app.
    rewrite (pages_leaf_sound _ _ _ _ _ _ _ _ _ Hs Hrs Hre Hpages). by world_norm.
Qed.

(** Every request, in every world, has a leaf. *)
Lemma run_leaf_complete fp s e sv w :
  exists r evs w0, run_leaf fp s e sv w r evs w0.
Proof.
  destruct (valid_or_invalid fp s e) as [(Hfp & Hs & He)|Hbad].
  2:{ eexists _, _, _. apply leaf_invalid; [reflexivity|].
      by apply validate_fields_invalid. }
  destruct (Py.renders s && Py.renders e) eqn:Hr.
  2:{ eexists _, _, _. by apply leaf_escaped. }
  destruct (fs w !! fp) as [[reader|ex]|] eqn:Hfs.
  - destruct (pages_leaf_complete fp s e sv w reader) as ([answer|ex] & evs & w0 & Hleaf).
    + eexists _, _, _. by eapply leaf_pages_ok.
    + eexists _, _, _. by eapply leaf_pages_failed.
  - eexists _, _, _. by eapply leaf_open_failed.
  - eexists _, _, _. by eapply leaf_missing.
Qed.

(** A leaf, run from the world it is a leaf of. *)
Lemma run_leaf_run fp s e sv w r evs w0 :
  run_leaf fp s e sv w r evs w0 ->
  open_and_split_pdf fp s e sv w = (r, add_events evs w0).
Proof.
  intros Hleaf. pose proof (run_leaf_sound _ _ _ _ _ _ _ _ Hleaf []) as Hrun.
  by rewrite add_events_nil in Hrun.
Qed.

(** The exception of the log line leaves the tool and the world as
    it was. *)
Lemma run_escapes fp s e sv w :
  Py.strip fp <> "" -> 1 <= s -> s <= e ->
  Py.renders s && Py.renders e = false ->
  open_and_split_pdf fp s e sv w = (Raise digits_error, w).
Proof.
  intros Hfp Hs He Hr.
  rewrite (run_leaf_run _ _ _ _ _ _ _ _ (leaf_escaped fp s e sv w Hfp Hs He Hr)).
  by rewrite add_events_nil.
Qed.

Example page_number_beyond_limit :
  open_and_split_pdf "/tmp/report.pdf" 1 (10 ^ 4300) false w_report
  = (Raise digits_error, w_report).
Proof.
  apply run_escapes.
  - vm_compute. discriminate.
  - reflexivity.
  - exact (Z.lt_le_incl _ _ (below_limit 1 eq_refl)).
  - rewrite (renders_limit (10 ^ 4300)) by apply Z.le_refl. reflexivity.
Qed.

(** Every run ends in a leaf. *)
Lemma run_has_leaf fp s e sv w :
  exists r evs w0,
    open_and_split_pdf fp s e sv w = (r, add_events evs w0)
    /\ run_leaf fp s e sv w r evs w0.
Proof.
  destruct (run_leaf_complete fp s e sv w) as (r & evs & w0 & Hleaf).
  exists r, evs, w0. split; [|done]. by apply run_leaf_run.
Qed.

(** A world reached by a run is the one it started from, or that one
    with a file put at the derived path. *)
Lemma pages_leaf_world fp s e sv w reader r evs w0 :
  pages_leaf fp s e sv w reader r evs w0 ->
  w0 = w \/ exists f, sv = true /\ w0 = put_file (derived_path fp s e) f w.
Proof. intros []; eauto. Qed.

Lemma run_leaf_world fp s e sv w r evs w0 :
  run_leaf fp s e sv w r evs w0 ->
  w0 = w \/ exists f, sv = true /\ w0 = put_file (derived_path fp s e) f w.
Proof. intros []; eauto using pages_leaf_world. Qed.

Lemma run_leaf_trace fp s e sv w r evs w0 :
  run_leaf fp s e sv w r evs w0 -> trace w0 = trace w.
Proof. intros Hleaf. by destruct (run_leaf_world _ _ _ _ _ _ _ _ Hleaf) as [->|(f & _ & ->)]. Qed.

(** A request that passes validation and whose page numbers fit the
    document is past the log line. *)
Lemma renders_in_document reader n s e :
  pypdf.pages_len reader = Ok n -> 1 <= s -> s <= e -> e <= n ->
  Py.renders s && Py.renders e = true.
Proof.
  intros Hlen Hs He Hn. apply andb_true_iff.
  split; apply (renders_page reader n); (done || lia).
Qed.

(** ** A run in which every stage succeeds *)

Lemma run_success w fp s e sv reader n pg tx :
  Py.strip fp <> "" -> 1 <= s -> s <= e ->
  fs w !! fp = Some (Ok reader) ->
  pypdf.pages_len reader = Ok n ->
  e <= n ->
  (forall i, s - 1 <= i < e -> page_readable reader i (pg i) (tx i)) ->
  (sv = true ->
   open_wb_fault w (derived_path fp s e) = None
   /\ write_fault w (map pg (Py.range (s - 1) e)) = None) ->
  open_and_split_pdf fp s e sv w =
  (Ok (content (map (fun i => page_record i (tx i)) (Py.range (s - 1) e))),
   add_events (success_events fp s e sv)
     (if sv then put_file (derived_path fp s e)
                   (Ok (pypdf.reader_of (map pg (Py.range (s - 1) e)))) w
      else w)).
Proof.
  intros Hfp Hs He Hfs Hlen Hn Hpages Hsave.
  pose proof (renders_in_document reader n s e Hlen Hs He Hn) as Hr.
  destruct sv.
  - destruct Hsave as [Hopen Hwrite]; [done|].
    rewrite (run_leaf_run _ _ _ _ _ _ _ _
               (leaf_pages_ok fp s e true w reader _ _ _ Hfp Hs He Hr Hfs
                  (pl_saved fp s e true w reader n pg tx
                     Hlen Hn Hpages eq_refl Hopen Hwrite))).
    unfold success_events, splitting_info. cbn [app].
    by rewrite <- !app_assoc.
  - rewrite (run_leaf_run _ _ _ _ _ _ _ _
               (leaf_pages_ok fp s e false w reader _ _ _ Hfp Hs He Hr Hfs
                  (pl_done fp s e false w reader n pg tx Hlen Hn Hpages eq_refl))).
    unfold success_events, splitting_info. by cbn [app].
Qed.

(** ** The calls of a run *)

Lemma Forall_page_events (P : event -> Prop) (l : list Z) :
  (forall ev, is_page_event ev = true -> P ev) ->
  Forall P (concat (map page_events l)).
Proof.
  intros HP. induction l as [|i l IH]; simpl; [constructor|].
  repeat (constructor; [by apply HP|]). exact IH.
Qed.

Lemma Forall_page_fails (P : event -> Prop) reader k ex fevs :
  page_fails reader k ex fevs ->
  (forall ev, is_page_event ev = true -> P ev) ->
  Forall P fevs.
Proof.
  intros [[_ ->]|(p & _ & [[_ ->]|(_ & _ & ->)])] HP;
    repeat (constructor; [by apply HP|]); constructor.
Qed.

(** Splits a statement about all calls of a leaf into one statement
    per call, and settles those on page calls by [tac]. *)
Ltac forall_events tac :=
  repeat first
    [ apply Forall_nil_2
    | apply Forall_cons_2; [try (simpl; done)|]
    | apply Forall_app_2
    | apply Forall_page_events; tac
    | eapply Forall_page_fails; [eassumption|]; tac ].

Lemma Forall_concat_page_events (P : event -> Prop) (l : list Z) :
  (forall i, i ∈ l -> Forall P (page_events i)) ->
  Forall P (concat (map page_events l)).
Proof.
  intros HP. induction l as [|i l IH]; [constructor|].
  cbn [map concat]. apply Forall_app_2; [apply HP; by left|].
  apply IH. intros j Hj. apply HP. by right.
Qed.

Lemma Forall_page_fails_prefix (P : event -> Prop) reader k ex fevs :
  page_fails reader k ex fevs -> Forall P (page_events k) -> Forall P fevs.
Proof.
  unfold page_events. intros Hk HP.
  apply Forall_cons in HP as [H1 HP]. apply Forall_cons in HP as [H2 HP].
  destruct Hk as [[_ ->]|(p & _ & [[_ ->]|(_ & _ & ->)])].
  - apply Forall_cons_2; [done|apply Forall_nil_2].
  - apply Forall_cons_2; [done|]. apply Forall_cons_2; [done|apply Forall_nil_2].
  - apply Forall_cons_2; [done|]. by apply Forall_cons_2.
Qed.

(** Where a range is cut, it is cut in two ranges. *)
Lemma range_split_inv a b l1 k l2 :
  Py.range a b = l1 ++ k :: l2 -> a <= k < b /\ l1 = Py.range a k.
Proof.
  revert a. induction l1 as [|i l1 IH]; intros a Hl.
  - destruct (Z.lt_ge_cases a b) as [Hab|Hab].
    + rewrite range_cons in Hl by done. injection Hl as <- _.
      split; [lia|]. unfold Py.range. by replace (Z.to_nat (a - a)) with 0%nat by lia.
    + unfold Py.range in Hl. by replace (Z.to_nat (b - a)) with 0%nat in Hl by lia.
  - destruct (Z.lt_ge_cases a b) as [Hab|Hab].
    + rewrite range_cons in Hl by done. injection Hl as <- Hl.
      destruct (IH _ Hl) as [Hk ->]. split; [lia|]. by rewrite (range_cons a k) by lia.
    + unfold Py.range in Hl. by replace (Z.to_nat (b - a)) with 0%nat in Hl by lia.
Qed.

(** The calls of the [with] block are page calls within the range
    and calls on the output file. *)
Lemma pages_leaf_run_event fp s e sv w reader r evs w0 :
  pages_leaf fp s e sv w reader r evs w0 ->
  Forall (run_event fp (derived_path fp s e) (s - 1) e) evs.
Proof.
  assert (forall i, s - 1 <= i < e ->
            Forall (run_event fp (derived_path fp s e) (s - 1) e) (page_events i))
    as Hpage.
  { intros i Hi. unfold page_events.
    repeat (apply Forall_cons_2; [by simpl|]). apply Forall_nil_2. }
  intros [ex Hlen|n Hlen Hn|n l1 k l2 pg tx ex fevs Hlen Hn Hl Hl1 Hk
         |n pg tx Hlen Hn Hpages Hsv|n pg tx ex Hlen Hn Hpages Hsv Hopen
         |n pg tx ex Hlen Hn Hpages Hsv Hopen Hwrite
         |n pg tx Hlen Hn Hpages Hsv Hopen Hwrite];
    repeat first
      [ apply Forall_nil_2
      | apply Forall_cons_2; [by simpl|]
      | apply Forall_app_2
      | apply Forall_concat_page_events; intros i Hi%elem_of_range; by apply Hpage ].
  - destruct (range_split_inv _ _ _ _ _ Hl) as [Hk' ->].
    apply Forall_concat_page_events. intros i Hi%elem_of_range. apply Hpage. lia.
  - destruct (range_split_inv _ _ _ _ _ Hl) as [Hk' _].
    eapply Forall_page_fails_prefix; [exact Hk|]. by apply Hpage.
Qed.

(** The calls of a run are made on the request's own path, on pages
    of its range and on the derived output path. *)
Lemma run_leaf_run_event fp s e sv w r evs w0 :
  run_leaf fp s e sv w r evs w0 ->
  Forall (run_event fp (derived_path fp s e) (s - 1) e) evs.
Proof.
  intros [errors Herr Hne|Hfp Hs He Hr|Hfp Hs He Hr Hfs|ex Hfp Hs He Hr Hfs
         |reader answer evs' w0' Hfp Hs He Hr Hfs Hpages
         |reader ex evs' w0' Hfp Hs He Hr Hfs Hpages];
    repeat first
      [ apply Forall_nil_2
      | apply Forall_cons_2; [by simpl|]
      | apply Forall_app_2
      | by eapply pages_leaf_run_event ].
Qed.

Lemma pages_leaf_ok_succeeds fp s e sv w reader answer evs w0 :
  Py.strip fp <> "" -> 1 <= s -> s <= e ->
  fs w !! fp = Some (Ok reader) ->
  pages_leaf fp s e sv w reader (Ok answer) evs w0 ->
  Py.startswith "Content from new PDF:" answer = true
  /\ all_stages_succeed w fp s e sv.
Proof.
  intros Hfp Hs He Hfs Hleaf.
  inversion Hleaf; subst; (split; [apply content_startswith|]);
    repeat (split; [done|]); exists reader, n, pg, tx;
    repeat (split; [done|]); by intros.
Qed.

(** A page that fails is not readable. *)
Lemma page_fails_not_readable reader k ex fevs p t :
  page_fails reader k ex fevs -> page_readable reader k p t -> False.
Proof.
  intros [[Hget _]|(q & Hget & [[Hadd _]|(_ & Htext & _)])] (Hget' & Hadd' & Htext');
    congruence.
Qed.

(** When the [with] block ends in an exception, a stage failed with
    that exception. *)
Lemma pages_leaf_stage_fails fp s e sv w reader ex evs w0 :
  fs w !! fp = Some (Ok reader) ->
  pages_leaf fp s e sv w reader (Raise ex) evs w0 ->
  stage_fails w fp s e sv ex.
Proof.
  intros Hfs Hleaf. inversion Hleaf; subst.
  - by eapply len_fails.
  - by eapply range_check_fails.
  - match goal with H : Py.range _ _ = _ |- _ =>
      destruct (range_split_inv _ _ _ _ _ H) as [Hk ->] end.
    eapply page_stage_fails; try done.
    intros i Hi. match goal with H : forall i, i ∈ _ -> _ |- _ => apply H end.
    by apply elem_of_range.
  - by eapply open_wb_fails.
  - by eapply write_fails.
Qed.

(** With [save_pdf], a run whose pages are all readable opens the
    derived output path for writing. *)
Lemma pages_leaf_reaches_save fp s e w reader r evs w0 n pg tx :
  pages_leaf fp s e true w reader r evs w0 ->
  pypdf.pages_len reader = Ok n -> e <= n ->
  (forall i, s - 1 <= i < e -> page_readable reader i (pg i) (tx i)) ->
  OpenWb (derived_path fp s e) ∈ evs.
Proof.
  intros Hleaf Hlen Hn Hpages.
  destruct Hleaf as [ex Hlen'|n' Hlen' Hn'|n' l1 k l2 pg' tx' ex fevs Hlen' Hn' Hl Hl1 Hk
                    |n' pg' tx' Hlen' Hn' Hpages' Hsv|n' pg' tx' ex Hlen' Hn' Hpages' Hsv Hopen
                    |n' pg' tx' ex Hlen' Hn' Hpages' Hsv Hopen Hwrite
                    |n' pg' tx' Hlen' Hn' Hpages' Hsv Hopen Hwrite].
  - congruence.
  - assert (n' = n) by congruence. lia.
  - destruct (range_split_inv _ _ _ _ _ Hl) as [Hk' _].
    destruct (page_fails_not_readable _ _ _ _ _ _ Hk (Hpages k Hk')).
  - discriminate.
  - right. apply elem_of_app. right. by left.
  - right. apply elem_of_app. right. by left.
  - right. apply elem_of_app. right. by left.
Qed.

(** ** The claims *)

(** C1, as stated, fails: on a host where the new file cannot be
    opened for writing, a valid request with [save_pdf] on an
    existing, readable five-page document does not get the page
    records but an error. *)
Lemma C1_counterexample :
  Py.strip "/tmp/report.pdf" <> "" /\ 1 <= 1 /\ 1 <= 2
  /\ fs w_readonly !! "/tmp/report.pdf" = Some (Ok (pypdf.reader_of report_pages))
  /\ pypdf.pages_len (pypdf.reader_of report_pages) = Ok 5 /\ 2 <= 5
  /\ page_readable (pypdf.reader_of report_pages) 0 (text_page "one") "one"
  /\ page_readable (pypdf.reader_of report_pages) 1 (text_page "two") "two"
  /\ fst (open_and_split_pdf "/tmp/report.pdf" 1 2 true w_readonly)
     = Ok "Error reading PDF '/tmp/report.pdf': [Errno 13] Permission denied: '/tmp/report_pgs_1-2.pdf'"
  /\ fst (open_and_split_pdf "/tmp/report.pdf" 1 2 true w_readonly)
     <> Ok ("Content from new PDF:" +:+ Py.nl +:+ Py.nl
            +:+ Py.join Py.nl ["--- Page 1 ---" +:+ Py.nl +:+ "one";
                               "--- Page 2 ---" +:+ Py.nl +:+ "two"]).
Proof.
  split; [by vm_compute|]. split; [lia|]. split; [lia|].
  split; [reflexivity|]. split; [reflexivity|]. split; [lia|].
  split; [by repeat split|]. split; [by repeat split|].
  split; [by vm_compute|]. by vm_compute.
Qed.

(** C1, amended: for every request with validated parameters
    [start_page = s], [end_page = e] on an existing document that
    opens, has [n >= e] pages and whose pages [s..e] are readable,
    and, when [save_pdf] is set, whose new file can be opened and
    written, the tool returns ["Content from new PDF:\n\n"] followed
    by the records joined by one newline; there are [e - s + 1]
    records, the [j]-th being that of page [s + j], and the record
    of page [k] is ["--- Page k ---\n"] followed by the text of the
    page. *)
Theorem C1_content_of_readable_range
    (w : World) (fp : string) (s e : Z) (sv : bool)
    (reader : pypdf.PdfReader) (n : Z)
    (page : Z -> pypdf.PageObject) (text : Z -> string) :
  Py.strip fp <> "" -> 1 <= s -> s <= e ->
  fs w !! fp = Some (Ok reader) ->
  pypdf.pages_len reader = Ok n ->
  e <= n ->
  (forall k, s <= k <= e -> page_readable reader (k - 1) (page k) (text k)) ->
  (sv = true ->
   open_wb_fault w (derived_path fp s e) = None
   /\ write_fault w (map page (Py.range s (e + 1))) = None) ->
  let record k := "--- Page " +:+ Py.str_int k +:+ " ---" +:+ Py.nl +:+ text k in
  let records := map record (Py.range s (e + 1)) in
  fst (open_and_split_pdf fp s e sv w)
  = Ok ("Content from new PDF:" +:+ Py.nl +:+ Py.nl +:+ Py.join Py.nl records)
  /\ Z.of_nat (length records) = e - s + 1
  /\ forall j : nat, Z.of_nat j < e - s + 1 ->
       records !! j = Some (record (s + Z.of_nat j)).
Proof.
  intros Hfp Hs He Hfs Hlen Hn Hpages Hsave record records.
  split; [|split].
  - rewrite (run_success w fp s e sv reader n
               (fun i => page (i + 1)) (fun i => text (i + 1))); try done.
    + simpl. unfold content, records. do 3 f_equal.
      rewrite <- (map_range_succ record). reflexivity.
    + intros i Hi. replace i with (i + 1 - 1) at 1 by lia. apply Hpages. lia.
    + intros Hsv. rewrite (map_range_succ page). by apply Hsave.
  - unfold records. rewrite length_map, length_range. lia.
  - intros j Hj. unfold records. rewrite list_lookup_fmap.
    rewrite lookup_range by lia. reflexivity.
Qed.

Lemma C1_witness :
  fst (open_and_split_pdf "/tmp/report.pdf" 2 3 true w_report)
  = Ok ("Content from new PDF:" +:+ Py.nl +:+ Py.nl
        +:+ Py.join Py.nl
              (map (fun k => "--- Page " +:+ Py.str_int k +:+ " ---" +:+ Py.nl
                             +:+ nth (Z.to_nat (k - 1)) ["one"; "two"; "three"; "four"; "five"] "")
                   (Py.range 2 (3 + 1)))).
Proof.
  refine (proj1 (C1_content_of_readable_range w_report "/tmp/report.pdf" 2 3 true
            (pypdf.reader_of report_pages) 5
            (fun k => nth (Z.to_nat (k - 1)) report_pages (text_page ""))
            (fun k => nth (Z.to_nat (k - 1)) ["one"; "two"; "three"; "four"; "five"] "")
            _ _ _ _ _ _ _ _)).
  - vm_compute. discriminate.
  - lia.
  - lia.
  - reflexivity.
  - reflexivity.
  - lia.
  - intros k Hk. assert (k = 2 \/ k = 3) as [-> | ->] by lia;
      repeat split; reflexivity.
  - intros _. split; reflexivity.
Defined.

(** C2: a request with validated parameters on an existing document
    that opens and has fewer pages than [end_page].  When both page
    numbers can be formatted the tool does what the claim says: it
    returns the error string that names [end_page] and the page
    count, having fetched no page and written no file.  When a page
    number has more than 4300 digits it does not: the log line
    between the two [try] blocks raises [ValueError], which leaves
    the tool before any call is made. *)
Theorem C2_range_exceeds_document
    (w : World) (fp : string) (s e : Z) (sv : bool)
    (reader : pypdf.PdfReader) (n : Z) :
  Py.strip fp <> "" -> 1 <= s -> s <= e ->
  fs w !! fp = Some (Ok reader) ->
  pypdf.pages_len reader = Ok n ->
  n < e ->
  open_and_split_pdf fp s e sv w
  = if Py.renders s && Py.renders e
    then
      (Ok ("Error reading PDF '" +:+ fp +:+ "': Requested page " +:+ Py.str_int e
           +:+ " exceeds the document length (" +:+ Py.str_int n +:+ " pages)."),
       add_events
         [Log "INFO" ("Splitting PDF '" +:+ fp +:+ "' from page " +:+ Py.str_int s
                      +:+ " to " +:+ Py.str_int e +:+ "...");
          PathExists fp; ReaderOpen fp; PagesLen; ReaderClose;
          Log "ERROR" ("Error reading PDF '" +:+ fp +:+ "': Requested page "
                       +:+ Py.str_int e +:+ " exceeds the document length ("
                       +:+ Py.str_int n +:+ " pages).")] w)
    else
      (Raise (Exception "ValueError"
                "Exceeds the limit (4300 digits) for integer string conversion; use sys.set_int_max_str_digits() to increase the limit"),
       w).
Proof.
  intros Hfp Hs He Hfs Hlen Hn.
  destruct (Py.renders s && Py.renders e) eqn:Hr.
  - exact (run_leaf_run _ _ _ _ _ _ _ _
             (leaf_pages_failed fp s e sv w reader _ _ _ Hfp Hs He Hr Hfs
                (pl_range_exceeded fp s e sv w reader n Hlen Hn))).
  - by apply run_escapes.
Qed.

Lemma C2_witness :
  open_and_split_pdf "/tmp/report.pdf" 1 (10 ^ 4300) false w_report
  = (Raise (Exception "ValueError"
              "Exceeds the limit (4300 digits) for integer string conversion; use sys.set_int_max_str_digits() to increase the limit"),
     w_report).
Proof.
  pose proof (C2_range_exceeds_document w_report "/tmp/report.pdf" 1 (10 ^ 4300) false
                (pypdf.reader_of report_pages) 5) as H.
  rewrite (renders_limit (10 ^ 4300)) in H by apply Z.le_refl.
  apply H; clear H.
  - vm_compute. discriminate.
  - reflexivity.
  - exact (Z.lt_le_incl _ _ (below_limit 1 eq_refl)).
  - reflexivity.
  - reflexivity.
  - exact (below_limit 5 eq_refl).
Defined.

(** C3: for every request that breaks a validation rule (the path is
    empty once stripped, [start_page < 1], [end_page < 1] or
    [end_page < start_page]) the tool returns a validation error,
    and all it did was to log it: no existence test, no file
    opened, whatever the file system holds.  In particular the
    answer is not the not-found error, also when the path does not
    exist. *)
Theorem C3_validation_before_file_access
    (w : World) (fp : string) (s e : Z) (sv : bool) :
  Py.strip fp = "" \/ s < 1 \/ e < 1 \/ e < s ->
  exists msg,
    open_and_split_pdf fp s e sv w
    = (Ok ("Error: Invalid input parameters - " +:+ msg),
       add_events [Log "ERROR" ("Invalid input parameters: " +:+ msg)] w)
    /\ "Error: Invalid input parameters - " +:+ msg
       <> "Error: File '" +:+ fp +:+ "' does not exist".
Proof.
  intros Hbad.
  destruct (open_and_split_pdf_invalid fp s e sv w Hbad) as (errors & _ & ->).
  eexists. split; [reflexivity|].
  intros Heq. cbv [String.append] in Heq. discriminate Heq.
Qed.

Lemma C3_witness :
  exists msg,
    open_and_split_pdf "/nowhere/report.pdf" 3 2 false w_report
    = (Ok ("Error: Invalid input parameters - " +:+ msg),
       add_events [Log "ERROR" ("Invalid input parameters: " +:+ msg)] w_report)
    /\ "Error: Invalid input parameters - " +:+ msg
       <> "Error: File '" +:+ "/nowhere/report.pdf" +:+ "' does not exist".
Proof.
  refine (C3_validation_before_file_access w_report "/nowhere/report.pdf" 3 2 false _).
  right. right. right. lia.
Defined.

(** C4: a request with validated parameters whose path does not
    exist.  When both page numbers can be formatted the tool does
    what the claim says: it logs the request, tests the existence of
    the path, logs and returns the not-found error naming the path,
    and never calls [PdfReader].  When a page number has more than
    4300 digits it does not: the log line between the two [try]
    blocks raises [ValueError], which leaves the tool before the
    existence test. *)
Theorem C4_missing_file
    (w : World) (fp : string) (s e : Z) (sv : bool) :
  Py.strip fp <> "" -> 1 <= s -> s <= e ->
  fs w !! fp = None ->
  open_and_split_pdf fp s e sv w
  = if Py.renders s && Py.renders e
    then
      (Ok ("Error: File '" +:+ fp +:+ "' does not exist"),
       add_events
         [Log "INFO" ("Splitting PDF '" +:+ fp +:+ "' from page " +:+ Py.str_int s
                      +:+ " to " +:+ Py.str_int e +:+ "...");
          PathExists fp;
          Log "ERROR" ("Error: File '" +:+ fp +:+ "' does not exist")] w)
    else
      (Raise (Exception "ValueError"
                "Exceeds the limit (4300 digits) for integer string conversion; use sys.set_int_max_str_digits() to increase the limit"),
       w).
Proof.
  intros Hfp Hs He Hfs.
  destruct (Py.renders s && Py.renders e) eqn:Hr.
  - exact (run_leaf_run _ _ _ _ _ _ _ _ (leaf_missing fp s e sv w Hfp Hs He Hr Hfs)).
  - by apply run_escapes.
Qed.

Lemma C4_witness :
  open_and_split_pdf "/tmp/nope.pdf" 1 (10 ^ 4300) false w_report
  = (Raise (Exception "ValueError"
              "Exceeds the limit (4300 digits) for integer string conversion; use sys.set_int_max_str_digits() to increase the limit"),
     w_report).
Proof.
  pose proof (C4_missing_file w_report "/tmp/nope.pdf" 1 (10 ^ 4300) false) as H.
  rewrite (renders_limit (10 ^ 4300)) in H by apply Z.le_refl.
  apply H; clear H.
  - vm_compute. discriminate.
  - reflexivity.
  - exact (Z.lt_le_incl _ _ (below_limit 1 eq_refl)).
  - reflexivity.
Defined.

(** C5: for every valid request with [save_pdf] set that reaches the
    saving step (the document opens, the range fits and its pages are
    readable), if opening the new file or writing it raises, the
    tool returns the error string of that exception and not the
    extracted text. *)
Theorem C5_failed_save_fails_request
    (w : World) (fp : string) (s e : Z)
    (reader : pypdf.PdfReader) (n : Z)
    (pg : Z -> pypdf.PageObject) (tx : Z -> string) (ex : exn) :
  Py.strip fp <> "" -> 1 <= s -> s <= e ->
  fs w !! fp = Some (Ok reader) ->
  pypdf.pages_len reader = Ok n ->
  e <= n ->
  (forall i, s - 1 <= i < e -> page_readable reader i (pg i) (tx i)) ->
  open_wb_fault w (derived_path fp s e) = Some ex
  \/ (open_wb_fault w (derived_path fp s e) = None
      /\ write_fault w (map pg (Py.range (s - 1) e)) = Some ex) ->
  fst (open_and_split_pdf fp s e true w)
  = Ok ("Error reading PDF '" +:+ fp +:+ "': " +:+ exn_str ex)
  /\ fst (open_and_split_pdf fp s e true w)
     <> Ok (content (map (fun i => page_record i (tx i)) (Py.range (s - 1) e))).
Proof.
  intros Hfp Hs He Hfs Hlen Hn Hpages Hfail.
  pose proof (renders_in_document reader n s e Hlen Hs He Hn) as Hr.
  assert (fst (open_and_split_pdf fp s e true w)
          = Ok ("Error reading PDF '" +:+ fp +:+ "': " +:+ exn_str ex)) as Hrun.
  { destruct Hfail as [Hopen|[Hopen Hwrite]].
    - by rewrite (run_leaf_run _ _ _ _ _ _ _ _
                    (leaf_pages_failed fp s e true w reader ex _ _ Hfp Hs He Hr Hfs
                       (pl_open_wb_failed fp s e true w reader n pg tx ex
                          Hlen Hn Hpages eq_refl Hopen))).
    - by rewrite (run_leaf_run _ _ _ _ _ _ _ _
                    (leaf_pages_failed fp s e true w reader ex _ _ Hfp Hs He Hr Hfs
                       (pl_write_failed fp s e true w reader n pg tx ex
                          Hlen Hn Hpages eq_refl Hopen Hwrite))). }
  split; [exact Hrun|]. rewrite Hrun. intros Heq.
  injection Heq as Heq. discriminate Heq.
Qed.

Lemma C5_witness :
  fst (open_and_split_pdf "/tmp/report.pdf" 2 3 true w_readonly)
  = Ok ("Error reading PDF '" +:+ "/tmp/report.pdf" +:+ "': "
        +:+ "[Errno 13] Permission denied: '/tmp/report_pgs_2-3.pdf'").
Proof.
  refine (proj1 (C5_failed_save_fails_request w_readonly "/tmp/report.pdf" 2 3
            (pypdf.reader_of report_pages) 5
            (fun i => nth (Z.to_nat i) report_pages (text_page ""))
            (fun i => nth (Z.to_nat i) ["one"; "two"; "three"; "four"; "five"] "")
            (Exception "PermissionError"
               "[Errno 13] Permission denied: '/tmp/report_pgs_2-3.pdf'")
            _ _ _ _ _ _ _ _)).
  - vm_compute. discriminate.
  - lia.
  - lia.
  - reflexivity.
  - reflexivity.
  - lia.
  - intros i Hi. assert (i = 1 \/ i = 2) as [-> | ->] by lia;
      repeat split; reflexivity.
  - left. reflexivity.
Defined.

(** C6, as stated, fails: the answer does not identify the page.  On
    a two-page scan the same request gets the same answer whether the
    text of page 1 or that of page 2 cannot be extracted, and that
    answer holds the message of the codec and no page number. *)
Lemma C6_counterexample :
  let first := pypdf.reader_of [broken_page "cannot decode stream"; text_page "two"] in
  let second := pypdf.reader_of [text_page "one"; broken_page "cannot decode stream"] in
  fs w_scan_first !! "/tmp/scan.pdf" = Some (Ok first)
  /\ fs w_scan_second !! "/tmp/scan.pdf" = Some (Ok second)
  /\ pypdf.pages_getitem first 0 = Ok (broken_page "cannot decode stream")
  /\ page_readable second 0 (text_page "one") "one"
  /\ pypdf.pages_getitem second 1 = Ok (broken_page "cannot decode stream")
  /\ pypdf.extract_text (broken_page "cannot decode stream")
     = Raise (Exception "PdfReadError" "cannot decode stream")
  /\ fst (open_and_split_pdf "/tmp/scan.pdf" 1 2 false w_scan_first)
     = Ok "Error reading PDF '/tmp/scan.pdf': cannot decode stream"
  /\ fst (open_and_split_pdf "/tmp/scan.pdf" 1 2 false w_scan_second)
     = Ok "Error reading PDF '/tmp/scan.pdf': cannot decode stream".
Proof.
  repeat split; by vm_compute.
Qed.

(** C6, amended: for every valid request on a document that opens and
    holds the range, if the text of a page of the range cannot be
    extracted (the pages before it being readable), the whole
    operation aborts: the tool returns
    ["Error reading PDF '{file_path}': {message of the failure}"],
    which holds no page record, and no file is written. *)
Theorem C6_extraction_failure_aborts
    (w : World) (fp : string) (s e : Z) (sv : bool)
    (reader : pypdf.PdfReader) (n : Z)
    (pg : Z -> pypdf.PageObject) (tx : Z -> string)
    (k : Z) (p : pypdf.PageObject) (ex : exn) :
  Py.strip fp <> "" -> 1 <= s -> s <= e ->
  fs w !! fp = Some (Ok reader) ->
  pypdf.pages_len reader = Ok n ->
  e <= n ->
  s - 1 <= k < e ->
  (forall i, s - 1 <= i < k -> page_readable reader i (pg i) (tx i)) ->
  pypdf.pages_getitem reader k = Ok p ->
  pypdf.add_page_fault p = None ->
  pypdf.extract_text p = Raise ex ->
  exists evs,
    open_and_split_pdf fp s e sv w
    = (Ok ("Error reading PDF '" +:+ fp +:+ "': " +:+ exn_str ex), add_events evs w).
Proof.
  intros Hfp Hs He Hfs Hlen Hn Hk Hpages Hget Hadd Htext.
  pose proof (renders_in_document reader n s e Hlen Hs He Hn) as Hr.
  assert (forall i, i ∈ Py.range (s - 1) k -> page_readable reader i (pg i) (tx i))
    as Hl1 by (intros i Hi; apply Hpages; by apply elem_of_range).
  assert (page_fails reader k ex (page_events k)) as Hfail.
  { right. exists p. split; [done|]. by right. }
  eexists.
  exact (run_leaf_run _ _ _ _ _ _ _ _
           (leaf_pages_failed fp s e sv w reader ex _ _ Hfp Hs He Hr Hfs
              (pl_page_failed fp s e sv w reader n _ k _ pg tx ex _
                 Hlen Hn (range_split (s - 1) k e Hk) Hl1 Hfail))).
Qed.

Lemma C6_witness :
  exists evs,
    open_and_split_pdf "/tmp/scan.pdf" 1 2 true w_scan_second
    = (Ok ("Error reading PDF '" +:+ "/tmp/scan.pdf" +:+ "': "
           +:+ "cannot decode stream"),
       add_events evs w_scan_second).
Proof.
  refine (C6_extraction_failure_aborts w_scan_second "/tmp/scan.pdf" 1 2 true
            (pypdf.reader_of [text_page "one"; broken_page "cannot decode stream"]) 2
            (fun _ => text_page "one") (fun _ => "one") 1
            (broken_page "cannot decode stream")
            (Exception "PdfReadError" "cannot decode stream")
            _ _ _ _ _ _ _ _ _ _ _).
  - vm_compute. discriminate.
  - lia.
  - lia.
  - reflexivity.
  - reflexivity.
  - lia.
  - lia.
  - intros i Hi. assert (i = 0) as -> by lia. repeat split; reflexivity.
  - reflexivity.
  - reflexivity.
  - reflexivity.
Defined.

(** C7: for every successful request with [save_pdf] set, the file
    system afterwards is the one before with the copied pages put at
    the path made of the parent of the input path, its stem,
    [_pgs_{start_page}-{end_page}] and its suffix: whatever was at
    that path is replaced, and the run made no call on any other
    output path. *)
Theorem C7_saved_at_derived_path
    (w w' : World) (fp : string) (s e : Z) (answer : string) :
  open_and_split_pdf fp s e true w = (Ok answer, w') ->
  Py.startswith "Content from new PDF:" answer = true ->
  let p := pathlib.mkPath fp in
  let out :=
    pathlib.str
      (pathlib.truediv (pathlib.parent p)
         (pathlib.mkPath (pathlib.stem p +:+ "_pgs_" +:+ Py.str_int s +:+ "-"
                          +:+ Py.str_int e +:+ pathlib.suffix p))) in
  exists reader pg,
    fs w !! fp = Some (Ok reader)
    /\ (forall i, s - 1 <= i < e -> pypdf.pages_getitem reader i = Ok (pg i))
    /\ fs w' = <[out := Ok (pypdf.reader_of (map pg (Py.range (s - 1) e)))]> (fs w)
    /\ fs w' !! out = Some (Ok (pypdf.reader_of (map pg (Py.range (s - 1) e))))
    /\ exists evs,
        trace w' = trace w ++ evs
        /\ OpenWb out ∈ evs /\ WriterWrite out ∈ evs
        /\ forall q, OpenWb q ∈ evs \/ WriterWrite q ∈ evs -> q = out.
Proof.
  intros Hrun Hanswer p out.
  change out with (derived_path fp s e). clear p out.
  destruct (run_has_leaf fp s e true w) as (r & evs & w0 & Hrun' & Hleaf).
  rewrite Hrun in Hrun'. injection Hrun' as <- _.
  assert (all_stages_succeed w fp s e true) as Hok.
  { inversion Hleaf; subst;
      try (exfalso; eapply startswith_Error_Content; [|exact Hanswer]; reflexivity).
    by eapply pages_leaf_ok_succeeds. }
  clear Hleaf.
  destruct Hok as (Hfp & Hs & He & reader & n & pg & tx & Hfs & Hlen & Hn & Hpages & Hsave).
  rewrite (run_success w fp s e true reader n pg tx) in Hrun by done.
  injection Hrun as _ <-.
  exists reader, pg. split; [done|].
  split; [intros i Hi; by destruct (Hpages i Hi)|].
  split; [reflexivity|]. split; [apply lookup_insert_eq|].
  exists (success_events fp s e true). split; [reflexivity|].
  unfold success_events.
  split; [|split].
  - rewrite !elem_of_app. right. right. left. by left.
  - rewrite !elem_of_app. right. right. left. right. by left.
  - intros q Hq.
    assert (forall ev, ev ∈ success_events fp s e true ->
                       run_event fp (derived_path fp s e) (s - 1) e ev) as Hin.
    { intros ev. unfold success_events. rewrite !elem_of_app.
      intros [Hev|[Hev|[Hev|Hev]]].
      - repeat (apply elem_of_cons in Hev as [->|Hev]; [done|]).
        by apply elem_of_nil in Hev.
      - apply list_elem_of_In, in_concat in Hev as (l & Hl & Hev).
        apply in_map_iff in Hl as (i & <- & Hi).
        apply list_elem_of_In, elem_of_range in Hi.
        apply list_elem_of_In in Hev. unfold page_events in Hev.
        repeat (apply elem_of_cons in Hev as [->|Hev]; [done|]).
        by apply elem_of_nil in Hev.
      - repeat (apply elem_of_cons in Hev as [->|Hev]; [done|]).
        by apply elem_of_nil in Hev.
      - repeat (apply elem_of_cons in Hev as [->|Hev]; [done|]).
        by apply elem_of_nil in Hev. }
    destruct Hq as [Hq|Hq]; exact (Hin _ Hq).
Qed.

Lemma C7_witness :
  exists reader pg,
    fs w_taken !! "/tmp/report.pdf" = Some (Ok reader)
    /\ (forall i, 2 - 1 <= i < 3 -> pypdf.pages_getitem reader i = Ok (pg i))
    /\ fs (snd (open_and_split_pdf "/tmp/report.pdf" 2 3 true w_taken))
       = <["/tmp/report_pgs_2-3.pdf" :=
             Ok (pypdf.reader_of (map pg (Py.range (2 - 1) 3)))]> (fs w_taken)
    /\ fs (snd (open_and_split_pdf "/tmp/report.pdf" 2 3 true w_taken))
         !! "/tmp/report_pgs_2-3.pdf"
       = Some (Ok (pypdf.reader_of (map pg (Py.range (2 - 1) 3))))
    /\ exists evs,
        trace (snd (open_and_split_pdf "/tmp/report.pdf" 2 3 true w_taken))
        = trace w_taken ++ evs
        /\ OpenWb "/tmp/report_pgs_2-3.pdf" ∈ evs
        /\ WriterWrite "/tmp/report_pgs_2-3.pdf" ∈ evs
        /\ forall q, OpenWb q ∈ evs \/ WriterWrite q ∈ evs
                     -> q = "/tmp/report_pgs_2-3.pdf".
Proof.
  refine (C7_saved_at_derived_path w_taken
            (snd (open_and_split_pdf "/tmp/report.pdf" 2 3 true w_taken))
            "/tmp/report.pdf" 2 3
            ("Content from new PDF:" +:+ Py.nl +:+ Py.nl
             +:+ "--- Page 2 ---" +:+ Py.nl +:+ "two" +:+ Py.nl
             +:+ "--- Page 3 ---" +:+ Py.nl +:+ "three") _ _).
  - vm_compute. reflexivity.
  - vm_compute. reflexivity.
Defined.

(** C8: what the tool does with a failure, for every request and
    every world.  A request that breaks a validation rule gets the
    validation error.  A valid request whose page numbers can be
    formatted always gets a string: the not-found error when the path
    does not exist, ["Error reading PDF '{file_path}': {str(e)}"]
    with [e] the exception of the stage that failed, or the content
    answer when every stage succeeded.  A valid request with a page
    number of more than 4300 digits gets no string: the log line
    between the two [try] blocks raises [ValueError], and that
    exception leaves the tool, which contradicts the claim. *)
Theorem C8_error_strings_and_escape
    (w : World) (fp : string) (s e : Z) (sv : bool) :
  ((Py.strip fp = "" \/ s < 1 \/ e < 1 \/ e < s) ->
   snd (validate_fields fp s e sv) <> []
   /\ fst (open_and_split_pdf fp s e sv w)
      = Ok ("Error: Invalid input parameters - "
            +:+ validation_error_str w (snd (validate_fields fp s e sv))))
  /\ ((Py.strip fp <> "" /\ 1 <= s /\ s <= e) ->
      Py.renders s && Py.renders e = true ->
      exists answer,
        fst (open_and_split_pdf fp s e sv w) = Ok answer
        /\ ((fs w !! fp = None
             /\ answer = "Error: File '" +:+ fp +:+ "' does not exist")
            \/ (exists ex,
                  stage_fails w fp s e sv ex
                  /\ answer = "Error reading PDF '" +:+ fp +:+ "': " +:+ exn_str ex)
            \/ (all_stages_succeed w fp s e sv
                /\ Py.startswith "Content from new PDF:" answer = true)))
  /\ ((Py.strip fp <> "" /\ 1 <= s /\ s <= e) ->
      Py.renders s && Py.renders e = false ->
      open_and_split_pdf fp s e sv w
      = (Raise (Exception "ValueError"
                  "Exceeds the limit (4300 digits) for integer string conversion; use sys.set_int_max_str_digits() to increase the limit"),
         w)).
Proof.
  split; [|split].
  - intros Hbad. pose proof (validate_fields_invalid fp s e sv Hbad) as Hne.
    split; [done|].
    by rewrite (run_leaf_run _ _ _ _ _ _ _ _
                  (leaf_invalid fp s e sv w _ eq_refl Hne)).
  - intros (Hfp & Hs & He) Hr.
    destruct (fs w !! fp) as [[reader|ex]|] eqn:Hfs.
    + destruct (pages_leaf_complete fp s e sv w reader) as ([answer|ex] & evs & w0 & Hleaf).
      * exists answer. split.
        { by rewrite (run_leaf_run _ _ _ _ _ _ _ _
                        (leaf_pages_ok fp s e sv w reader _ _ _ Hfp Hs He Hr Hfs Hleaf)). }
        right. right.
        destruct (pages_leaf_ok_succeeds _ _ _ _ _ _ _ _ _ Hfp Hs He Hfs Hleaf). done.
      * eexists. split.
        { by rewrite (run_leaf_run _ _ _ _ _ _ _ _
                        (leaf_pages_failed fp s e sv w reader _ _ _ Hfp Hs He Hr Hfs Hleaf)). }
        right. left. exists ex. split; [|done]. by eapply pages_leaf_stage_fails.
    + eexists. split.
      { by rewrite (run_leaf_run _ _ _ _ _ _ _ _
                      (leaf_open_failed fp s e sv w ex Hfp Hs He Hr Hfs)). }
      right. left. exists ex. split; [|done]. by apply open_fails.
    + eexists. split.
      { by rewrite (run_leaf_run _ _ _ _ _ _ _ _
                      (leaf_missing fp s e sv w Hfp Hs He Hr Hfs)). }
      by left.
  - intros (Hfp & Hs & He) Hr. by apply run_escapes.
Qed.

Lemma C8_witness :
  open_and_split_pdf "/tmp/report.pdf" (10 ^ 4300) (10 ^ 4300 + 1) true w_report
  = (Raise (Exception "ValueError"
              "Exceeds the limit (4300 digits) for integer string conversion; use sys.set_int_max_str_digits() to increase the limit"),
     w_report).
Proof.
  refine (proj2 (proj2 (C8_error_strings_and_escape w_report "/tmp/report.pdf"
                          (10 ^ 4300) (10 ^ 4300 + 1) true)) _ _).
  - split; [vm_compute; discriminate|].
    split; [exact (Z.lt_le_incl _ _ (below_limit 1 eq_refl))|exact limit_le_succ].
  - rewrite (renders_limit (10 ^ 4300)) by apply Z.le_refl. reflexivity.
Defined.

(** On a well-formed document an index within the page count is
    never an [IndexError]. *)
Lemma reader_of_getitem_in_bounds (l : list pypdf.PageObject) (i : Z) :
  0 <= i < Z.of_nat (length l) ->
  exists p, pypdf.pages_getitem (pypdf.reader_of l) i = Ok p /\ l !! Z.to_nat i = Some p.
Proof.
  intros Hi. simpl. unfold pypdf.list_getitem.
  destruct (Z.ltb_spec i 0); [lia|].
  destruct (Z.leb_spec 0 i); [|lia].
  destruct (Z.ltb_spec i (Z.of_nat (length l))); [|lia]. simpl.
  destruct (l !! Z.to_nat i) as [p|] eqn:Hp; [by exists p|].
  apply lookup_ge_None in Hp. lia.
Qed.

(** C9: for every request that passes validation and the range check
    on a document of [n] pages, every index [i] at which the run
    reads [reader.pages[i]] satisfies [0 <= i < n]. *)
Theorem C9_page_indices_in_bounds
    (w : World) (fp : string) (s e : Z) (sv : bool)
    (reader : pypdf.PdfReader) (n : Z) :
  Py.strip fp <> "" -> 1 <= s -> s <= e ->
  fs w !! fp = Some (Ok reader) ->
  pypdf.pages_len reader = Ok n ->
  e <= n ->
  exists evs,
    trace (snd (open_and_split_pdf fp s e sv w)) = trace w ++ evs
    /\ forall i, PagesGetitem i ∈ evs -> 0 <= i < n.
Proof.
  intros Hfp Hs He Hfs Hlen Hn.
  destruct (run_has_leaf fp s e sv w) as (r & evs & w0 & Hrun & Hleaf).
  pose proof (run_leaf_run_event _ _ _ _ _ _ _ _ Hleaf) as Hevs.
  exists evs. split.
  - rewrite Hrun. cbn [snd trace add_events].
    by rewrite (run_leaf_trace _ _ _ _ _ _ _ _ Hleaf).
  - intros i Hi.
    pose proof (proj1 (Forall_forall _ _) Hevs _ Hi) as Hb. simpl in Hb. lia.
Qed.

Lemma C9_witness :
  exists evs,
    trace (snd (open_and_split_pdf "/tmp/report.pdf" 4 5 false w_report))
    = trace w_report ++ evs
    /\ forall i, PagesGetitem i ∈ evs -> 0 <= i < 5.
Proof.
  refine (C9_page_indices_in_bounds w_report "/tmp/report.pdf" 4 5 false
            (pypdf.reader_of report_pages) 5 _ _ _ _ _ _).
  - vm_compute. discriminate.
  - lia.
  - lia.
  - reflexivity.
  - reflexivity.
  - lia.
Defined.

(** C10: for every path that is not empty once stripped, with or
    without white space around it, validation accepts the request and
    keeps the path as it was given.  Every existence test and every
    [PdfReader] call of the run is made on that very string and every
    file opened for writing is at the path derived from it; and these
    calls are made: the existence test once the request is logged
    (both page numbers can be formatted), [PdfReader] when moreover
    the path exists, and the opening of the derived path when
    [save_pdf] is set and the pages of the range are readable. *)
Theorem C10_path_is_used_untrimmed
    (w : World) (fp : string) (s e : Z) (sv : bool) :
  Py.strip fp <> "" -> 1 <= s -> s <= e ->
  let out :=
    pathlib.str
      (pathlib.truediv (pathlib.parent (pathlib.mkPath fp))
         (pathlib.mkPath
            (pathlib.stem (pathlib.mkPath fp) +:+ "_pgs_"
             +:+ Py.str_int s +:+ "-" +:+ Py.str_int e
             +:+ pathlib.suffix (pathlib.mkPath fp)))) in
  file_path_must_not_be_empty fp = Ok fp
  /\ PDFSplitParams_new fp s e sv w = (Ok (mkParams fp s e sv), w)
  /\ exists evs,
      trace (snd (open_and_split_pdf fp s e sv w)) = trace w ++ evs
      /\ (forall q, PathExists q ∈ evs -> q = fp)
      /\ (forall q, ReaderOpen q ∈ evs -> q = fp)
      /\ (forall q, OpenWb q ∈ evs -> q = out)
      /\ (Py.renders s && Py.renders e = true -> PathExists fp ∈ evs)
      /\ (Py.renders s && Py.renders e = true -> is_Some (fs w !! fp) ->
          ReaderOpen fp ∈ evs)
      /\ (sv = true ->
          (exists reader n pg tx,
             fs w !! fp = Some (Ok reader)
             /\ pypdf.pages_len reader = Ok n /\ e <= n
             /\ forall i, s - 1 <= i < e -> page_readable reader i (pg i) (tx i)) ->
          OpenWb out ∈ evs).
Proof.
  intros Hfp Hs He out. change out with (derived_path fp s e). clear out.
  split; [|split].
  - unfold file_path_must_not_be_empty.
    by rewrite (proj2 (truthy_strip fp) Hfp).
  - by apply PDFSplitParams_new_valid.
  - destruct (run_has_leaf fp s e sv w) as (r & evs & w0 & Hrun & Hleaf).
    pose proof (run_leaf_run_event _ _ _ _ _ _ _ _ Hleaf) as Hevs.
    exists evs. split; [|split; [|split; [|split; [|split; [|split]]]]].
    + rewrite Hrun. cbn [snd trace add_events].
      by rewrite (run_leaf_trace _ _ _ _ _ _ _ _ Hleaf).
    + intros q Hq. exact (proj1 (Forall_forall _ _) Hevs _ Hq).
    + intros q Hq. exact (proj1 (Forall_forall _ _) Hevs _ Hq).
    + intros q Hq. exact (proj1 (Forall_forall _ _) Hevs _ Hq).
    + intros Hr. clear Hrun Hevs.
      destruct Hleaf as [errors Herr Hne|_ _ _ Hr'|_ _ _ _ Hfs|ex _ _ _ _ Hfs
                        |reader answer evs' w0' _ _ _ _ Hfs Hpages
                        |reader ex evs' w0' _ _ _ _ Hfs Hpages].
      * rewrite validate_fields_valid in Herr by done. congruence.
      * congruence.
      * right. by left.
      * right. by left.
      * right. by left.
      * right. by left.
    + intros Hr Hsome. clear Hrun Hevs.
      destruct Hleaf as [errors Herr Hne|_ _ _ Hr'|_ _ _ _ Hfs|ex _ _ _ _ Hfs
                        |reader answer evs' w0' _ _ _ _ Hfs Hpages
                        |reader ex evs' w0' _ _ _ _ Hfs Hpages].
      * rewrite validate_fields_valid in Herr by done. congruence.
      * congruence.
      * rewrite Hfs in Hsome. by destruct Hsome.
      * do 2 right. by left.
      * do 2 right. by left.
      * do 2 right. by left.
    + intros -> (reader & n & pg & tx & Hfs & Hlen & Hn & Hpages). clear Hrun Hevs.
      pose proof (renders_in_document reader n s e Hlen Hs He Hn) as Hr.
      destruct Hleaf as [errors Herr Hne|_ _ _ Hr'|_ _ _ _ Hfs'|ex _ _ _ _ Hfs'
                        |reader' answer evs' w0' _ _ _ _ Hfs' Hleaf
                        |reader' ex evs' w0' _ _ _ _ Hfs' Hleaf].
      * rewrite validate_fields_valid in Herr by done. congruence.
      * congruence.
      * congruence.
      * congruence.
      * assert (reader' = reader) as -> by congruence.
        do 3 right. apply elem_of_app. left.
        by eapply pages_leaf_reaches_save.
      * assert (reader' = reader) as -> by congruence.
        do 3 right. apply elem_of_app. left.
        by eapply pages_leaf_reaches_save.
Qed.

Lemma C10_witness :
  file_path_must_not_be_empty "  docs/report.pdf " = Ok "  docs/report.pdf "
  /\ PDFSplitParams_new "  docs/report.pdf " 1 2 true w_spaced
     = (Ok (mkParams "  docs/report.pdf " 1 2 true), w_spaced)
  /\ exists evs,
      trace (snd (open_and_split_pdf "  docs/report.pdf " 1 2 true w_spaced))
      = trace w_spaced ++ evs
      /\ (forall q, PathExists q ∈ evs -> q = "  docs/report.pdf ")
      /\ (forall q, ReaderOpen q ∈ evs -> q = "  docs/report.pdf ")
      /\ (forall q, OpenWb q ∈ evs -> q = "  docs/report_pgs_1-2.pdf ")
      /\ PathExists "  docs/report.pdf " ∈ evs
      /\ ReaderOpen "  docs/report.pdf " ∈ evs
      /\ OpenWb "  docs/report_pgs_1-2.pdf " ∈ evs.
Proof.
  destruct (C10_path_is_used_untrimmed w_spaced "  docs/report.pdf " 1 2 true)
    as (Hv & Hnew & evs & Htrace & Hexists & Hopen & Hout & Htested & Hopened & Hsaved).
  - vm_compute. discriminate.
  - lia.
  - lia.
  - split; [exact Hv|]. split; [exact Hnew|]. exists evs.
    split; [exact Htrace|]. split; [exact Hexists|]. split; [exact Hopen|].
    split; [exact Hout|].
    split; [apply Htested; reflexivity|].
    split; [apply Hopened; [reflexivity|by eexists]|].
    apply Hsaved; [reflexivity|].
    exists (pypdf.reader_of report_pages), 5,
           (fun i => nth (Z.to_nat i) report_pages (text_page "")),
           (fun i => nth (Z.to_nat i) ["one"; "two"; "three"; "four"; "five"] "").
    split; [reflexivity|]. split; [reflexivity|]. split; [lia|].
    intros i Hi. assert (i = 0 \/ i = 1) as [-> | ->] by lia;
      repeat split; reflexivity.
Defined.

(** ** More about validation *)

Lemma lstrip_all_space (v : string) :
  Py.lstrip v = "" <-> all_space v = true.
Proof.
  induction v as [|c v IH]; simpl; [done|].
  destruct (Py.isspace c); simpl; [exact IH|]. split; discriminate.
Qed.

Lemma rstrip_all_space (v : string) :
  Py.rstrip v = "" <-> all_space v = true.
Proof.
  induction v as [|c v IH]; simpl; [done|].
  destruct (Py.rstrip v) as [|d r].
  - destruct (Py.isspace c); simpl.
    + split; [intros _; by apply IH|done].
    + split; discriminate.
  - split; [discriminate|]. intros [_ Hv]%andb_prop.
    apply IH in Hv. discriminate.
Qed.

Lemma lstrip_head (v : string) c r :
  Py.lstrip v = String c r -> Py.isspace c = false.
Proof.
  induction v as [|d v IH]; simpl; [discriminate|].
  destruct (Py.isspace d) eqn:Hd; [exact IH|]. by intros [= -> _].
Qed.

Lemma strip_all_space (v : string) :
  Py.strip v = "" <-> all_space v = true.
Proof.
  unfold Py.strip. rewrite <- lstrip_all_space.
  destruct (Py.lstrip v) as [|c r] eqn:Hl; [done|].
  split; [|discriminate]. intros Hr.
  apply rstrip_all_space in Hr. simpl in Hr.
  by rewrite (lstrip_head v c r Hl) in Hr.
Qed.

Lemma file_path_validator_cases (v : string) :
  file_path_must_not_be_empty v
  = if all_space v
    then Raise (Exception "ValueError" "file_path cannot be empty or whitespace only")
    else Ok v.
Proof.
  unfold file_path_must_not_be_empty.
  destruct (all_space v) eqn:Hv.
  - apply strip_all_space in Hv. by rewrite Hv.
  - destruct (Py.strip v) eqn:Hs; [|done].
    apply strip_all_space in Hs. congruence.
Qed.

(** The validator of [file_path] rejects exactly the strings made of
    white space only, the empty string among them, and returns every
    other string as it is. *)
Theorem file_path_rejected_iff_all_space (v : string) :
  file_path_must_not_be_empty v
  = if all_space v
    then Raise (Exception "ValueError" "file_path cannot be empty or whitespace only")
    else Ok v.
Proof. apply file_path_validator_cases. Qed.

(** Validation reports every field that breaks a rule, in the order
    of the fields and at most once per field.  The order of the two
    page numbers is looked at only when both are at least 1: below 1
    a page number gets the bound error, and [end_page] is not compared
    with a [start_page] that failed. *)
Theorem validate_fields_errors (fp : string) (s e : Z) (sv : bool) :
  snd (validate_fields fp s e sv)
  = (if all_space fp
     then [mkError "file_path"
             (value_error "file_path cannot be empty or whitespace only")]
     else [])
    ++ (if s <? 1 then [mkError "start_page" (greater_than_equal 1)] else [])
    ++ (if e <? 1 then [mkError "end_page" (greater_than_equal 1)]
        else if (1 <=? s) && (e <? s)
             then [mkError "end_page"
                     (value_error "end_page must be greater than or equal to start_page")]
             else []).
Proof.
  unfold validate_fields, validate_field, ge_constraint,
    end_page_must_be_greater_or_equal_to_start.
  rewrite file_path_validator_cases.
  destruct (all_space fp); simpl;
    destruct (Z.leb_spec 1 s); destruct (Z.ltb_spec s 1); try lia;
    destruct (Z.leb_spec 1 e); destruct (Z.ltb_spec e 1); try lia;
    simpl; rewrite ?lookup_insert_eq;
    rewrite ?lookup_insert_ne by done; rewrite ?lookup_empty;
    try destruct (Z.ltb_spec e s); reflexivity.
Qed.

(** The model is built exactly for the requests that keep the three
    rules, with the four values as they were given, and building it
    leaves the world alone. *)
Theorem PDFSplitParams_new_accepts_iff
    (fp : string) (s e : Z) (sv : bool) (w w' : World) (params : PDFSplitParams) :
  PDFSplitParams_new fp s e sv w = (Ok params, w')
  <-> (all_space fp = false /\ 1 <= s /\ s <= e)
      /\ params = mkParams fp s e sv /\ w' = w.
Proof.
  assert (all_space fp = false <-> Py.strip fp <> "") as Hsp.
  { destruct (all_space fp) eqn:Hv.
    - apply strip_all_space in Hv. split; [done|]. intros Hne. by destruct Hne.
    - split; [|done]. intros _ Hs. apply strip_all_space in Hs. congruence. }
  split.
  - intros Hnew.
    destruct (valid_or_invalid fp s e) as [(Hfp & Hs & He)|Hbad].
    + rewrite PDFSplitParams_new_valid in Hnew by done.
      injection Hnew as <- <-. by rewrite Hsp.
    + destruct (PDFSplitParams_new_invalid fp s e sv w Hbad) as (errors & _ & Hraise).
      rewrite Hraise in Hnew. discriminate Hnew.
  - intros ((Hfp & Hs & He) & -> & ->).
    apply PDFSplitParams_new_valid; [by apply Hsp|done|done].
Qed.

(** ** More about the calls of a run *)

(** Without [save_pdf] the tool writes nothing, whatever the request
    and the world: the file system is left as it was and no file is
    opened for writing.  The run ends with an answer, or, on a valid
    request with a page number of more than 4300 digits, with the
    exception of the log line and no call made. *)
Theorem no_save_no_file_written (fp : string) (s e : Z) (w : World) :
  exists r evs,
    open_and_split_pdf fp s e false w = (r, add_events evs w)
    /\ Forall (fun ev => is_write_event ev = false) evs
    /\ ((exists answer, r = Ok answer)
        \/ (r = Raise digits_error /\ evs = []
            /\ Py.renders s && Py.renders e = false)).
Proof.
  destruct (run_has_leaf fp s e false w) as (r & evs & w0 & Hrun & Hleaf).
  assert (w0 = w) as ->.
  { by destruct (run_leaf_world _ _ _ _ _ _ _ _ Hleaf) as [->|(f & ? & _)]. }
  exists r, evs. split; [exact Hrun|]. clear Hrun.
  destruct Hleaf as [errors Herr Hne|Hfp Hs He Hr|Hfp Hs He Hr Hfs|ex Hfp Hs He Hr Hfs
                    |reader answer evs' w0' Hfp Hs He Hr Hfs Hpages
                    |reader ex evs' w0' Hfp Hs He Hr Hfs Hpages].
  1,3,4: (split; [by repeat constructor|left; by eexists]).
  - split; [constructor|]. by right.
  - split; [|left; by eexists].
    inversion Hpages; subst; try discriminate.
    forall_events ltac:(by intros [] ?).
  - split; [|left; by eexists].
    inversion Hpages; subst; try discriminate;
      forall_events ltac:(by intros [] ?).
Qed.

(** A file that exists but that the codec cannot open, on a valid
    request whose page numbers can be formatted: the tool returns the
    codec's message behind ["Error reading PDF"], reads no page,
    writes nothing, and has no reader to close. *)
Theorem unreadable_file_is_reported
    (w : World) (fp : string) (s e : Z) (sv : bool) (ex : exn) :
  Py.strip fp <> "" -> 1 <= s -> s <= e ->
  Py.renders s && Py.renders e = true ->
  fs w !! fp = Some (Raise ex) ->
  open_and_split_pdf fp s e sv w
  = (Ok ("Error reading PDF '" +:+ fp +:+ "': " +:+ exn_str ex),
     add_events
       [Log "INFO" (splitting_info fp s e); PathExists fp; ReaderOpen fp;
        Log "ERROR" ("Error reading PDF '" +:+ fp +:+ "': " +:+ exn_str ex)] w).
Proof.
  intros Hfp Hs He Hr Hfs.
  exact (run_leaf_run _ _ _ _ _ _ _ _ (leaf_open_failed fp s e sv w ex Hfp Hs He Hr Hfs)).
Qed.

Lemma unreadable_file_is_reported_witness :
  open_and_split_pdf "/tmp/broken.pdf" 1 1 false w_broken
  = (Ok ("Error reading PDF '" +:+ "/tmp/broken.pdf" +:+ "': " +:+ "EOF marker not found"),
     add_events
       [Log "INFO" (splitting_info "/tmp/broken.pdf" 1 1);
        PathExists "/tmp/broken.pdf"; ReaderOpen "/tmp/broken.pdf";
        Log "ERROR" ("Error reading PDF '" +:+ "/tmp/broken.pdf" +:+ "': "
                     +:+ "EOF marker not found")] w_broken).
Proof.
  refine (unreadable_file_is_reported w_broken "/tmp/broken.pdf" 1 1 false
            (Exception "PdfReadError" "EOF marker not found") _ _ _ _ _).
  - vm_compute. discriminate.
  - lia.
  - lia.
  - reflexivity.
  - reflexivity.
Defined.

(** Once the reader is open (the request is valid, its page numbers
    can be formatted, the file exists and the codec opens it) it is
    closed exactly once, on every way out of the [with] block, normal
    or not; after that the run makes no call on a page or on a file,
    at most it logs the error. *)
Theorem reader_closed_exactly_once
    (w : World) (fp : string) (s e : Z) (sv : bool) (reader : pypdf.PdfReader) :
  Py.strip fp <> "" -> 1 <= s -> s <= e ->
  Py.renders s && Py.renders e = true ->
  fs w !! fp = Some (Ok reader) ->
  exists answer before after w0,
    open_and_split_pdf fp s e sv w
    = (Ok answer, add_events (before ++ ReaderClose :: after) w0)
    /\ ReaderOpen fp ∈ before
    /\ (ReaderClose ∉ before)
    /\ (after = [] \/ exists m, after = [Log "ERROR" m]).
Proof.
  intros Hfp Hs He Hr Hfs.
  destruct (pages_leaf_complete fp s e sv w reader) as (r & evs & w0 & Hpages).
  assert (Forall (fun ev => ev <> ReaderClose) evs) as Hevs.
  { destruct Hpages; forall_events ltac:(by intros [] ?). }
  assert (ReaderClose ∉ ([Log "INFO" (splitting_info fp s e); PathExists fp;
                           ReaderOpen fp] ++ evs)) as Hbefore.
  { intros Hin. apply elem_of_app in Hin as [Hin|Hin].
    - repeat (apply elem_of_cons in Hin as [Hin|Hin]; [discriminate Hin|]).
      by apply elem_of_nil in Hin.
    - by apply (proj1 (Forall_forall _ _) Hevs _ Hin). }
  assert (ReaderOpen fp ∈ ([Log "INFO" (splitting_info fp s e); PathExists fp;
                             ReaderOpen fp] ++ evs)) as Hopen.
  { apply elem_of_app. left. do 2 right. by left. }
  destruct r as [answer|ex].
  - pose proof (run_leaf_run _ _ _ _ _ _ _ _
                  (leaf_pages_ok fp s e sv w reader answer evs w0 Hfp Hs He Hr Hfs Hpages))
      as Hrun.
    eexists answer, _, [], w0. split; [|split; [exact Hopen|split; [exact Hbefore|by left]]].
    rewrite Hrun. by rewrite <- app_assoc.
  - pose proof (run_leaf_run _ _ _ _ _ _ _ _
                  (leaf_pages_failed fp s e sv w reader ex evs w0 Hfp Hs He Hr Hfs Hpages))
      as Hrun.
    eexists _, _, [Log "ERROR" (reading_error fp ex)], w0.
    split; [|split; [exact Hopen|split; [exact Hbefore|right; eauto]]].
    rewrite Hrun. by rewrite <- app_assoc.
Qed.

Lemma reader_closed_exactly_once_witness :
  exists answer before after w0,
    open_and_split_pdf "/tmp/report.pdf" 1 10 true w_report
    = (Ok answer, add_events (before ++ ReaderClose :: after) w0)
    /\ ReaderOpen "/tmp/report.pdf" ∈ before
    /\ (ReaderClose ∉ before)
    /\ (after = [] \/ exists m, after = [Log "ERROR" m]).
Proof.
  refine (reader_closed_exactly_once w_report "/tmp/report.pdf" 1 10 true
            (pypdf.reader_of report_pages) _ _ _ _ _).
  - vm_compute. discriminate.
  - lia.
  - lia.
  - reflexivity.
  - reflexivity.
Defined.

(** The first page of the range that cannot be fetched, copied or
    read ends the run: the answer carries that failure's message, the
    pages after it are never fetched, and no file is opened for
    writing, with or without [save_pdf]. *)
Theorem first_failing_page_ends_run
    (w : World) (fp : string) (s e : Z) (sv : bool)
    (reader : pypdf.PdfReader) (n : Z)
    (pg : Z -> pypdf.PageObject) (tx : Z -> string)
    (k : Z) (ex : exn) (fevs : list event) :
  Py.strip fp <> "" -> 1 <= s -> s <= e ->
  fs w !! fp = Some (Ok reader) ->
  pypdf.pages_len reader = Ok n ->
  e <= n ->
  s - 1 <= k < e ->
  (forall i, s - 1 <= i < k -> page_readable reader i (pg i) (tx i)) ->
  page_fails reader k ex fevs ->
  exists evs,
    open_and_split_pdf fp s e sv w
    = (Ok ("Error reading PDF '" +:+ fp +:+ "': " +:+ exn_str ex), add_events evs w)
    /\ Forall (fun ev => is_write_event ev = false) evs
    /\ forall i, PagesGetitem i ∈ evs -> s - 1 <= i <= k.
Proof.
  intros Hfp Hs He Hfs Hlen Hn Hk Hpages Hfail.
  assert (forall i, i ∈ Py.range (s - 1) k -> page_readable reader i (pg i) (tx i))
    as Hl1 by (intros i Hi; apply Hpages; by apply elem_of_range).
  pose proof (renders_in_document reader n s e Hlen Hs He Hn) as Hr.
  pose proof (run_leaf_run _ _ _ _ _ _ _ _
                (leaf_pages_failed fp s e sv w reader ex _ _ Hfp Hs He Hr Hfs
                   (pl_page_failed fp s e sv w reader n _ k _ pg tx ex fevs
                      Hlen Hn (range_split (s - 1) k e Hk) Hl1 Hfail))) as Hrun.
  cbn [app] in Hrun.
  eexists. split; [exact Hrun|]. split.
  - forall_events ltac:(by intros [] ?).
  - assert (Forall (fun ev => match ev with
                              | PagesGetitem i => s - 1 <= i <= k
                              | _ => True
                              end)
              (Log "INFO" (splitting_info fp s e) :: PathExists fp :: ReaderOpen fp
               :: (PagesLen :: concat (map page_events (Py.range (s - 1) k)) ++ fevs)
               ++ [ReaderClose; Log "ERROR" (reading_error fp ex)])) as Hall.
    { repeat first
        [ apply Forall_nil_2
        | apply Forall_cons_2; [done|]
        | apply Forall_app_2 ].
      - apply Forall_concat_page_events. intros i Hi%elem_of_range.
        unfold page_events. repeat (constructor; [simpl; try done; lia|]). constructor.
      - eapply Forall_page_fails_prefix; [exact Hfail|].
        unfold page_events. repeat (constructor; [simpl; try done; lia|]). constructor. }
    intros i Hi. exact (proj1 (Forall_forall _ _) Hall _ Hi).
Qed.

Lemma first_failing_page_ends_run_witness :
  exists evs,
    open_and_split_pdf "/tmp/scan.pdf" 1 2 true w_scan_first
    = (Ok ("Error reading PDF '" +:+ "/tmp/scan.pdf" +:+ "': " +:+ "cannot decode stream"),
       add_events evs w_scan_first)
    /\ Forall (fun ev => is_write_event ev = false) evs
    /\ forall i, PagesGetitem i ∈ evs -> 1 - 1 <= i <= 0.
Proof.
  refine (first_failing_page_ends_run w_scan_first "/tmp/scan.pdf" 1 2 true
            (pypdf.reader_of [broken_page "cannot decode stream"; text_page "two"]) 2
            (fun _ => text_page "") (fun _ => "") 0
            (Exception "PdfReadError" "cannot decode stream") (page_events 0)
            _ _ _ _ _ _ _ _ _).
  - vm_compute. discriminate.
  - lia.
  - lia.
  - reflexivity.
  - reflexivity.
  - lia.
  - lia.
  - intros i Hi. lia.
  - right. exists (broken_page "cannot decode stream").
    split; [reflexivity|]. right. repeat split; reflexivity.
Defined.

(** ** Answers and log lines *)



(** On a request whose page numbers can be formatted, the lead of the
    answer tells how far the run got: validation failed, the file is
    missing, reading or saving failed, or every stage succeeded; the
    four leads exclude each other. *)
Theorem answer_lead_tells_stage (fp : string) (s e : Z) (sv : bool) (w : World) :
  Py.renders s && Py.renders e = true ->
  exists answer,
    fst (open_and_split_pdf fp s e sv w) = Ok answer
    /\ (Py.startswith "Error: Invalid input parameters - " answer = true
        <-> (Py.strip fp = "" \/ s < 1 \/ e < 1 \/ e < s))
    /\ (Py.startswith "Error: File '" answer = true
        <-> ((Py.strip fp <> "" /\ 1 <= s /\ s <= e) /\ fs w !! fp = None))
    /\ (Py.startswith "Error reading PDF '" answer = true
        <-> ((Py.strip fp <> "" /\ 1 <= s /\ s <= e) /\ is_Some (fs w !! fp)
             /\ ~ all_stages_succeed w fp s e sv))
    /\ (Py.startswith "Content from new PDF:" answer = true
        <-> all_stages_succeed w fp s e sv).
Proof.
  intros Hrenders.
  destruct (run_has_leaf fp s e sv w) as (r & evs & w0 & Hrun & Hleaf).
  assert (forall answer, r = Ok answer -> all_stages_succeed w fp s e sv ->
          Py.startswith "Content from new PDF:" answer = true) as Hsucc.
  { intros answer -> (Hfp & Hs & He & reader & n & pg & tx & Hfs & Hlen & Hn & Hpages & Hsave).
    rewrite (run_success w fp s e sv reader n pg tx) in Hrun by done.
    injection Hrun as <- _. apply content_startswith. }
  assert (forall P : Prop, (Py.strip fp <> "" /\ 1 <= s /\ s <= e) ->
            (Py.strip fp = "" \/ s < 1 \/ e < 1 \/ e < s) -> P) as Hexcl.
  { intros P (Hfp & Hs & He) [?|?]; [done|lia]. }
  rewrite Hrun. cbn [fst]. clear Hrun.
  destruct Hleaf as [errors Herr Hne|Hfp Hs He Hr|Hfp Hs He Hr Hfs|ex Hfp Hs He Hr Hfs
                    |reader answer evs' w0' Hfp Hs He Hr Hfs Hpages
                    |reader ex evs' w0' Hfp Hs He Hr Hfs Hpages];
    [|congruence|..]; (eexists; split; [reflexivity|]);
    specialize (Hsucc _ eq_refl).
  - assert (Py.strip fp = "" \/ s < 1 \/ e < 1 \/ e < s) as Hbad.
    { destruct (valid_or_invalid fp s e) as [(Hfp & Hs & He)|Hbad]; [|done].
      rewrite validate_fields_valid in Herr by done. congruence. }
    split; [|split; [|split]].
    + split; [by intros _|intros _; apply startswith_app].
    + split; [discriminate|]. intros [Hv _]. by apply Hexcl.
    + split; [discriminate|]. intros [Hv _]. by apply Hexcl.
    + split; [discriminate|]. intros Hall. apply Hsucc in Hall. discriminate Hall.
  - split; [|split; [|split]].
    + split; [discriminate|]. intros Hbad. by apply Hexcl.
    + split; [by intros _|intros _; apply startswith_app].
    + split; [discriminate|]. intros (_ & [x Hx] & _). congruence.
    + split; [discriminate|]. intros Hall. apply Hsucc in Hall. discriminate Hall.
  - split; [|split; [|split]].
    + split; [discriminate|]. intros Hbad. by apply Hexcl.
    + split; [discriminate|]. intros [_ ?]. congruence.
    + split; [intros _|intros _; apply startswith_app]. split; [done|]. split; [by eexists|].
      intros Hall. apply Hsucc in Hall. discriminate Hall.
    + split; [discriminate|]. intros Hall. apply Hsucc in Hall. discriminate Hall.
  - destruct (pages_leaf_ok_succeeds _ _ _ _ _ _ _ _ _ Hfp Hs He Hfs Hpages)
      as [Hcontent Hall].
    inversion Hpages; subst;
      (split; [|split; [|split]];
       [ split; [discriminate|]; intros Hbad; by apply Hexcl
       | split; [discriminate|]; intros [_ ?]; congruence
       | split; [discriminate|]; by intros (_ & _ & Hno)
       | split; [by intros _|intros _; apply content_startswith] ]).
  - split; [|split; [|split]].
    + split; [discriminate|]. intros Hbad. by apply Hexcl.
    + split; [discriminate|]. intros [_ ?]. congruence.
    + split; [intros _|intros _; apply startswith_app]. split; [done|]. split; [by eexists|].
      intros Hall. apply Hsucc in Hall. discriminate Hall.
    + split; [discriminate|]. intros Hall. apply Hsucc in Hall. discriminate Hall.
Qed.

Lemma answer_lead_tells_stage_witness :
  exists answer,
    fst (open_and_split_pdf "/tmp/nope.pdf" 1 2 false w_report) = Ok answer
    /\ (Py.startswith "Error: Invalid input parameters - " answer = true
        <-> (Py.strip "/tmp/nope.pdf" = "" \/ 1 < 1 \/ 2 < 1 \/ 2 < 1))
    /\ (Py.startswith "Error: File '" answer = true
        <-> ((Py.strip "/tmp/nope.pdf" <> "" /\ 1 <= 1 /\ 1 <= 2)
             /\ fs w_report !! "/tmp/nope.pdf" = None))
    /\ (Py.startswith "Error reading PDF '" answer = true
        <-> ((Py.strip "/tmp/nope.pdf" <> "" /\ 1 <= 1 /\ 1 <= 2)
             /\ is_Some (fs w_report !! "/tmp/nope.pdf")
             /\ ~ all_stages_succeed w_report "/tmp/nope.pdf" 1 2 false))
    /\ (Py.startswith "Content from new PDF:" answer = true
        <-> all_stages_succeed w_report "/tmp/nope.pdf" 1 2 false).
Proof.
  refine (answer_lead_tells_stage "/tmp/nope.pdf" 1 2 false w_report _).
  reflexivity.
Defined.

(** ** The derived path, as a string *)

#[local] Arguments String.append : simpl nomatch.

Lemma length_append (a b : string) :
  String.length (a +:+ b) = (String.length a + String.length b)%nat.
Proof. induction a as [|c a IH]; simpl; [done|]. by rewrite IH. Qed.

Lemma append_assoc (a b c : string) : (a +:+ b) +:+ c = a +:+ (b +:+ c).
Proof. induction a as [|d a IH]; simpl; [done|]. by rewrite IH. Qed.

Lemma append_empty_r (a : string) : a +:+ "" = a.
Proof. induction a as [|d a IH]; simpl; [done|]. by rewrite IH. Qed.

Lemma slash_free_append (a b : string) :
  slash_free (a +:+ b) = slash_free a && slash_free b.
Proof. induction a as [|c a IH]; simpl; [done|]. rewrite IH. by destruct (Ascii.eqb c "/"). Qed.

Lemma all_space_append (a b : string) :
  all_space (a +:+ b) = all_space a && all_space b.
Proof. induction a as [|c a IH]; simpl; [done|]. rewrite IH. by destruct (Py.isspace c). Qed.

Lemma ends_slash_append (a b : string) :
  b <> "" -> ends_slash (a +:+ b) = ends_slash b.
Proof.
  intros Hb. induction a as [|c a IH]; simpl; [done|].
  rewrite <- IH. destruct (a +:+ b) eqn:Hab; [|done].
  destruct a; simpl in Hab; [done|discriminate].
Qed.

Lemma split_sep_slash_free (n : string) :
  slash_free n = true -> pathlib.split_sep n = [n].
Proof.
  induction n as [|c n IH]; simpl; [done|].
  intros [Hc Hn]%andb_prop. rewrite (IH Hn).
  by destruct (Ascii.eqb c "/").
Qed.

Lemma split_sep_nonempty (p : string) : pathlib.split_sep p <> [].
Proof.
  destruct p as [|c p]; simpl; [done|].
  destruct (pathlib.split_sep p); [done|]. by destruct (Ascii.eqb c "/").
Qed.

Lemma split_sep_parts (p : string) :
  Forall (fun x => slash_free x = true) (pathlib.split_sep p).
Proof.
  induction p as [|c p IH]; simpl; [by repeat constructor|].
  pose proof (split_sep_nonempty p) as Hne.
  destruct (pathlib.split_sep p) as [|x xs]; [done|].
  apply Forall_cons in IH as [Hx Hxs].
  destruct (Ascii.eqb c "/") eqn:Hc.
  - by repeat constructor.
  - constructor; [|done]. simpl. by rewrite Hc.
Qed.

Lemma split_sep_last (y n : string) :
  ends_slash y = true -> slash_free n = true ->
  exists l, pathlib.split_sep (y +:+ n) = l ++ [n] /\ (y <> "" -> l <> []).
Proof.
  intros Hy Hn. induction y as [|c y IH].
  - exists []. simpl. split; [by apply split_sep_slash_free|done].
  - destruct y as [|d y].
    + simpl in Hy. exists [""]. split; [|done].
      simpl. rewrite (split_sep_slash_free n Hn). by rewrite Hy.
    + destruct IH as (l & Hl & Hne); [exact Hy|].
      change (String c (String d y) +:+ n) with (String c (String d y +:+ n)).
      cbn [pathlib.split_sep]. rewrite Hl.
      destruct l as [|x l]; [by destruct Hne|]. simpl.
      destruct (Ascii.eqb c "/");
        [exists ("" :: x :: l)|exists (String c x :: l)]; by split.
Qed.

(** splitroot, one character at a time *)
Lemma splitroot_rel (c : ascii) (r : string) :
  Ascii.eqb c "/" = false -> pathlib.splitroot (String c r) = ("", String c r).
Proof.
  destruct c as [[] [] [] [] [] [] [] []]; try reflexivity; discriminate.
Qed.

Lemma splitroot_one (c : ascii) (r : string) :
  Ascii.eqb c "/" = false ->
  pathlib.splitroot (String "/" (String c r)) = ("/", String c r).
Proof.
  destruct c as [[] [] [] [] [] [] [] []]; try reflexivity; discriminate.
Qed.

Lemma splitroot_two (c : ascii) (r : string) :
  Ascii.eqb c "/" = false ->
  pathlib.splitroot (String "/" (String "/" (String c r))) = ("//", String c r).
Proof.
  destruct c as [[] [] [] [] [] [] [] []]; try reflexivity; discriminate.
Qed.

Lemma eqb_slash (c : ascii) : Ascii.eqb c "/" = true -> c = "/"%char.
Proof. by intros ?%Ascii.eqb_eq. Qed.

(** The root of a path whose last name is [n] is taken from what
    stands before [n]. *)
Lemma splitroot_last (y n : string) :
  ends_slash y = true -> slash_free n = true -> n <> "" ->
  exists r y',
    pathlib.splitroot (y +:+ n) = (r, y' +:+ n)
    /\ ends_slash y' = true
    /\ ends_slash r = true.
Proof.
  intros Hy Hn Hne.
  destruct n as [|a n]; [done|]. cbn [slash_free] in Hn. apply andb_prop in Hn as [Ha Hn].
  apply negb_true_iff in Ha.
  destruct y as [|c1 y].
  { exists "", "". cbn [String.append]. by rewrite (splitroot_rel a n Ha). }
  destruct (Ascii.eqb c1 "/") eqn:H1.
  2:{ exists "", (String c1 y). cbn [String.append]. by rewrite (splitroot_rel c1 _ H1). }
  apply eqb_slash in H1 as ->.
  destruct y as [|c2 y].
  { exists "/", "". cbn [String.append]. by rewrite (splitroot_one a n Ha). }
  destruct (Ascii.eqb c2 "/") eqn:H2.
  2:{ exists "/", (String c2 y). cbn [String.append]. rewrite (splitroot_one c2 _ H2).
      split; [done|]. split; [|done]. by destruct y. }
  apply eqb_slash in H2 as ->.
  destruct y as [|c3 y].
  { exists "//", "". cbn [String.append]. by rewrite (splitroot_two a n Ha). }
  destruct (Ascii.eqb c3 "/") eqn:H3.
  2:{ exists "//", (String c3 y). cbn [String.append]. rewrite (splitroot_two c3 _ H3).
      split; [done|]. split; [|done]. by destruct y. }
  apply eqb_slash in H3 as ->.
  exists "/", (String "/" (String "/" y)). split; [reflexivity|]. split; [|done].
  by destruct y.
Qed.

Lemma truthy_append (y n : string) : n <> "" -> Py.truthy (y +:+ n) = true.
Proof. intros Hn. destruct y; simpl; [by destruct n|done]. Qed.

Lemma prefix_empty (s : string) : String.prefix "" s = true.
Proof. by destruct s. Qed.

Lemma startswith_slash (c : ascii) (s : string) :
  Py.startswith "/" (String c s) = Ascii.eqb c "/".
Proof.
  unfold Py.startswith. cbn [String.prefix].
  destruct (ascii_dec "/" c) as [<-|Hc].
  - by rewrite prefix_empty.
  - symmetry. apply Ascii.eqb_neq. congruence.
Qed.

(** The parts of a path whose last name is [n] end with [n]. *)
Lemma parse_path_last (y n : string) :
  ends_slash y = true -> slash_free n = true -> n <> "" -> n <> "." ->
  exists r t,
    pathlib.parse_path (y +:+ n) = (r, t ++ [n]) /\ ends_slash r = true.
Proof.
  intros Hy Hn Hne Hdot. unfold pathlib.parse_path.
  rewrite truthy_append by done. cbn [negb].
  destruct (splitroot_last y n Hy Hn Hne) as (r & y' & -> & Hy' & Hr).
  destruct (split_sep_last y' n Hy' Hn) as (l & -> & _).
  exists r, (filter (fun x => Py.truthy x = true /\ x <> ".") l).
  split; [|done]. f_equal. rewrite filter_app. f_equal.
  rewrite filter_cons_True; [done|]. split; [by destruct n|done].
Qed.

Lemma name_last (y n : string) :
  ends_slash y = true -> slash_free n = true -> n <> "" -> n <> "." ->
  pathlib.name (pathlib.mkPath (y +:+ n)) = n.
Proof.
  intros Hy Hn Hne Hdot.
  destruct (parse_path_last y n Hy Hn Hne Hdot) as (r & t & Hp & _).
  unfold pathlib.name, pathlib.tail. cbn [pathlib.raw]. rewrite Hp.
  apply last_last.
Qed.

Lemma join_last (t : list string) (n : string) :
  exists z, Py.join "/" (t ++ [n]) = z +:+ n /\ ends_slash z = true.
Proof.
  unfold Py.join. induction t as [|x t (z & IH & Hz)].
  - by exists "".
  - exists (x +:+ "/" +:+ z). split.
    + cbn [app String.concat]. destruct (t ++ [n]) eqn:Ht.
      { by destruct t. }
      rewrite IH. by rewrite !append_assoc.
    + rewrite ends_slash_append by done. by destruct z.
Qed.

Lemma str_last (y n : string) :
  ends_slash y = true -> slash_free n = true -> n <> "" -> n <> "." ->
  exists y2,
    pathlib.str (pathlib.mkPath (y +:+ n)) = y2 +:+ n /\ ends_slash y2 = true.
Proof.
  intros Hy Hn Hne Hdot.
  destruct (parse_path_last y n Hy Hn Hne Hdot) as (r & t & Hp & Hr).
  destruct (join_last t n) as (z & Hz & Hzs).
  unfold pathlib.str, pathlib.root, pathlib.tail, pathlib.format_parsed_parts.
  cbn [pathlib.raw]. rewrite Hp. cbn [fst snd]. rewrite Hz, <- append_assoc.
  rewrite truthy_append by done.
  exists (r +:+ z). split; [done|].
  destruct z; [by rewrite append_empty_r|]. by rewrite ends_slash_append.
Qed.

Lemma rev_app_ends_slash (a acc : string) :
  a <> "" -> Py.startswith "/" (String.rev_app a acc) = ends_slash a.
Proof.
  revert acc. induction a as [|c a IH]; intros acc Ha; [done|].
  destruct a as [|d a].
  - cbn [String.rev_app ends_slash]. apply startswith_slash.
  - change (String.rev_app (String c (String d a)) acc)
      with (String.rev_app (String d a) (String c acc)).
    rewrite (IH (String c acc)) by done. reflexivity.
Qed.

Lemma posix_join_last (a n : string) :
  slash_free n = true -> n <> "" ->
  exists y, pathlib.posix_join a n = y +:+ n /\ ends_slash y = true.
Proof.
  intros Hn Hne. unfold pathlib.posix_join.
  destruct n as [|c n]; [done|]. cbn [slash_free] in Hn.
  apply andb_prop in Hn as [Hc Hn]. apply negb_true_iff in Hc.
  rewrite startswith_slash, Hc.
  destruct a as [|d a].
  - by exists "".
  - cbn [Py.truthy negb orb]. unfold String.rev.
    rewrite rev_app_ends_slash by done.
    destruct (ends_slash (String d a)) eqn:Ha.
    + by exists (String d a).
    + exists (String d a +:+ "/"). split; [by rewrite append_assoc|].
      by rewrite ends_slash_append.
Qed.

Lemma slash_free_substring (s : string) (n m : nat) :
  slash_free s = true -> slash_free (String.substring n m s) = true.
Proof.
  revert n m. induction s as [|c s IH]; intros n m Hs.
  - by destruct n, m.
  - cbn [slash_free] in Hs. apply andb_prop in Hs as [Hc Hs].
    destruct n as [|n]; [destruct m as [|m]|]; cbn [String.substring]; [done| |by apply IH].
    cbn [slash_free]. by rewrite Hc, IH.
Qed.

Lemma substring_split (s : string) (i : nat) :
  (i <= String.length s)%nat ->
  String.substring 0 i s +:+ String.substring i (String.length s - i) s = s.
Proof.
  revert i. induction s as [|c s IH]; intros i Hi.
  - by destruct i.
  - destruct i as [|i]; cbn [String.substring String.length Nat.sub].
    + cbn [String.append]. f_equal. specialize (IH 0%nat).
      cbn [String.append] in IH. rewrite Nat.sub_0_r in IH.
      destruct s; [done|]. cbn [String.substring] in IH. apply IH. simpl. lia.
    + cbn [String.append]. f_equal. apply IH. simpl in Hi. lia.
Qed.

Lemma last_in (l : list string) (d : string) :
  List.last l d = d \/ List.last l d ∈ l.
Proof.
  induction l as [|x l IH]; [by left|].
  destruct l as [|y l]; [right; by left|].
  destruct IH as [IH|IH]; [left|right]; [exact IH|by right].
Qed.

Lemma name_slash_free (p : pathlib.Path) : slash_free (pathlib.name p) = true.
Proof.
  unfold pathlib.name, pathlib.tail, pathlib.parse_path.
  destruct (last_in (snd (if negb (Py.truthy (pathlib.raw p)) then ("", [])
                          else let '(root, rel) := pathlib.splitroot (pathlib.raw p) in
                               (root, filter (fun x => Py.truthy x = true /\ x <> ".")
                                        (pathlib.split_sep rel)))) "") as [->|Hin];
    [done|].
  destruct (negb (Py.truthy (pathlib.raw p))); [by apply elem_of_nil in Hin|].
  destruct (pathlib.splitroot (pathlib.raw p)) as [root rel]. cbn [snd] in Hin.
  apply list_elem_of_filter in Hin as [_ Hin].
  exact (proj1 (Forall_forall _ _) (split_sep_parts rel) _ Hin).
Qed.

Lemma stem_suffix_name (p : pathlib.Path) :
  pathlib.stem p +:+ pathlib.suffix p = pathlib.name p.
Proof.
  unfold pathlib.stem, pathlib.suffix, pathlib.suffix_at.
  destruct (pathlib.rfind "." (pathlib.name p)) as [i|]; [|apply append_empty_r].
  destruct (Nat.ltb 0 i && Nat.ltb (S i) (String.length (pathlib.name p))) eqn:Hi;
    [|apply append_empty_r].
  apply andb_prop in Hi as [_ Hi%Nat.ltb_lt]. apply substring_split. lia.
Qed.

Lemma string_of_uint_slash_free (d : Decimal.uint) :
  slash_free (NilEmpty.string_of_uint d) = true.
Proof. induction d; simpl; done. Qed.

Lemma str_int_slash_free (n : Z) : slash_free (Py.str_int n) = true.
Proof.
  unfold Py.str_int, NilZero.string_of_int, NilZero.string_of_uint.
  destruct (Z.to_int n) as [d|d]; destruct d;
    try reflexivity; cbn [slash_free]; try apply string_of_uint_slash_free.
Qed.

Lemma new_name_slash_free fp s e : slash_free (new_name fp s e) = true.
Proof.
  unfold new_name, pathlib.stem, pathlib.suffix.
  rewrite !slash_free_append, !str_int_slash_free.
  destruct (pathlib.suffix_at _);
    rewrite ?slash_free_substring by apply name_slash_free;
    rewrite ?name_slash_free; reflexivity.
Qed.

Lemma new_name_length fp s e :
  (String.length (pathlib.name (pathlib.mkPath fp)) + 6
   <= String.length (new_name fp s e))%nat.
Proof.
  rewrite <- (stem_suffix_name (pathlib.mkPath fp)). unfold new_name.
  rewrite !length_append. simpl. lia.
Qed.

Lemma new_name_not_blank fp s e : all_space (new_name fp s e) = false.
Proof.
  unfold new_name. rewrite all_space_append.
  apply andb_false_iff. by right.
Qed.

(** The derived path ends with the new name, which is its last name. *)
Lemma derived_path_last fp s e :
  (exists y, derived_path fp s e = y +:+ new_name fp s e)
  /\ pathlib.name (pathlib.mkPath (derived_path fp s e)) = new_name fp s e.
Proof.
  pose proof (new_name_slash_free fp s e) as Hn.
  pose proof (new_name_length fp s e) as Hlen.
  assert (new_name fp s e <> "") as Hne by (intros H; rewrite H in Hlen; simpl in Hlen; lia).
  assert (new_name fp s e <> ".") as Hdot by (intros H; rewrite H in Hlen; simpl in Hlen; lia).
  unfold derived_path. fold (new_name fp s e). unfold pathlib.truediv. cbn [pathlib.raw].
  destruct (posix_join_last (pathlib.raw (pathlib.parent (pathlib.mkPath fp)))
              (new_name fp s e) Hn Hne) as (y & -> & Hy).
  destruct (str_last y _ Hy Hn Hne Hdot) as (y2 & -> & Hy2).
  split; [by exists y2|]. by apply name_last.
Qed.

Lemma derived_path_not_source fp s e : derived_path fp s e <> fp.
Proof.
  intros Heq. destruct (derived_path_last fp s e) as [_ Hname].
  rewrite Heq in Hname. pose proof (new_name_length fp s e) as Hlen.
  rewrite <- Hname in Hlen. lia.
Qed.

Lemma derived_path_not_blank fp s e : Py.strip (derived_path fp s e) <> "".
Proof.
  intros Hs. apply strip_all_space in Hs.
  destruct (derived_path_last fp s e) as [(y & Hy) _].
  rewrite Hy, all_space_append, new_name_not_blank in Hs.
  by destruct (all_space y).
Qed.

(** The new file is named after the input: its path ends with the
    stem of the input's name, [_pgs_{start_page}-{end_page}] and the
    input's suffix, and that is its last name; stem and suffix make up
    the input's name, so the input's extension is kept.  The derived
    path is never the input path and never blank. *)
Theorem derived_path_names_new_file (fp : string) (s e : Z) :
  let p := pathlib.mkPath fp in
  let n := pathlib.stem p +:+ "_pgs_" +:+ Py.str_int s +:+ "-" +:+ Py.str_int e
           +:+ pathlib.suffix p in
  (exists y, derived_path fp s e = y +:+ n)
  /\ pathlib.name (pathlib.mkPath (derived_path fp s e)) = n
  /\ pathlib.stem p +:+ pathlib.suffix p = pathlib.name p
  /\ derived_path fp s e <> fp
  /\ Py.strip (derived_path fp s e) <> "".
Proof.
  intros p n. change n with (new_name fp s e).
  destruct (derived_path_last fp s e) as [Hy Hname].
  split; [exact Hy|]. split; [exact Hname|].
  split; [apply stem_suffix_name|].
  split; [apply derived_path_not_source|apply derived_path_not_blank].
Qed.

(** What was saved can be read back: after a successful run with
    [save_pdf], the file at the derived path opens as a document of
    [end_page - start_page + 1] pages, and the tool run on it for all
    its pages returns the texts of the pages [start_page..end_page]
    of the source, numbered from 1. *)
Theorem saved_file_reads_back
    (w : World) (fp : string) (s e : Z)
    (reader : pypdf.PdfReader) (n : Z)
    (pg : Z -> pypdf.PageObject) (tx : Z -> string) :
  Py.strip fp <> "" -> 1 <= s -> s <= e ->
  fs w !! fp = Some (Ok reader) ->
  pypdf.pages_len reader = Ok n ->
  e <= n ->
  (forall i, s - 1 <= i < e -> page_readable reader i (pg i) (tx i)) ->
  open_wb_fault w (derived_path fp s e) = None ->
  write_fault w (map pg (Py.range (s - 1) e)) = None ->
  let w1 := snd (open_and_split_pdf fp s e true w) in
  (exists saved,
     fs w1 !! derived_path fp s e = Some (Ok saved)
     /\ pypdf.pages_len saved = Ok (e - s + 1)
     /\ forall j, 0 <= j < e - s + 1 ->
          pypdf.pages_getitem saved j = pypdf.pages_getitem reader (s - 1 + j))
  /\ fst (open_and_split_pdf (derived_path fp s e) 1 (e - s + 1) false w1)
     = Ok ("Content from new PDF:" +:+ Py.nl +:+ Py.nl
           +:+ Py.join Py.nl
                 (map (fun j => "--- Page " +:+ Py.str_int (j + 1) +:+ " ---"
                                +:+ Py.nl +:+ tx (s - 1 + j))
                      (Py.range 0 (e - s + 1)))).
Proof.
  intros Hfp Hs He Hfs Hlen Hn Hpages Hopen Hwrite w1.
  assert (w1 = add_events (success_events fp s e true)
                 (put_file (derived_path fp s e)
                    (Ok (pypdf.reader_of (map pg (Py.range (s - 1) e)))) w)) as Hw1.
  { unfold w1. by rewrite (run_success w fp s e true reader n pg tx). }
  assert (Z.of_nat (length (map pg (Py.range (s - 1) e))) = e - s + 1) as Hlength
    by (rewrite length_map, length_range; lia).
  assert (pypdf.pages_len (pypdf.reader_of (map pg (Py.range (s - 1) e)))
          = Ok (e - s + 1)) as Hcount.
  { rewrite pages_len_reader_of; [by rewrite Hlength|].
    apply pages_len_bounds in Hlen. lia. }
  assert (forall j, 0 <= j < e - s + 1 ->
            pypdf.pages_getitem (pypdf.reader_of (map pg (Py.range (s - 1) e))) j
            = Ok (pg (s - 1 + j))) as Hget.
  { intros j Hj.
    destruct (reader_of_getitem_in_bounds (map pg (Py.range (s - 1) e)) j)
      as (p & -> & Hp); [lia|].
    rewrite list_lookup_fmap, lookup_range in Hp by lia.
    rewrite Z2Nat.id in Hp by lia. by injection Hp as <-. }
  assert (fs w1 !! derived_path fp s e
          = Some (Ok (pypdf.reader_of (map pg (Py.range (s - 1) e))))) as Hsaved.
  { rewrite Hw1. cbn [fs add_events put_file]. apply lookup_insert_eq. }
  split.
  - eexists. split; [exact Hsaved|]. split.
    + exact Hcount.
    + intros j Hj. rewrite Hget by done.
      symmetry. apply (Hpages (s - 1 + j)). lia.
  - rewrite (run_success w1 (derived_path fp s e) 1 (e - s + 1) false
               (pypdf.reader_of (map pg (Py.range (s - 1) e))) (e - s + 1)
               (fun j => pg (s - 1 + j)) (fun j => tx (s - 1 + j))).
    + reflexivity.
    + apply derived_path_not_blank.
    + lia.
    + lia.
    + exact Hsaved.
    + exact Hcount.
    + lia.
    + intros j Hj. destruct (Hpages (s - 1 + j)) as (_ & Hadd & Htext); [lia|].
      split; [apply Hget; lia|done].
    + discriminate.
Qed.

Lemma saved_file_reads_back_witness :
  (exists saved,
     fs (snd (open_and_split_pdf "/tmp/report.pdf" 2 3 true w_taken))
       !! "/tmp/report_pgs_2-3.pdf" = Some (Ok saved)
     /\ pypdf.pages_len saved = Ok (3 - 2 + 1)
     /\ forall j, 0 <= j < 3 - 2 + 1 ->
          pypdf.pages_getitem saved j
          = pypdf.pages_getitem (pypdf.reader_of report_pages) (2 - 1 + j))
  /\ fst (open_and_split_pdf "/tmp/report_pgs_2-3.pdf" 1 (3 - 2 + 1) false
            (snd (open_and_split_pdf "/tmp/report.pdf" 2 3 true w_taken)))
     = Ok ("Content from new PDF:" +:+ Py.nl +:+ Py.nl
           +:+ Py.join Py.nl
                 (map (fun j => "--- Page " +:+ Py.str_int (j + 1) +:+ " ---"
                                +:+ Py.nl
                                +:+ nth (Z.to_nat (2 - 1 + j))
                                      ["one"; "two"; "three"; "four"; "five"] "")
                      (Py.range 0 (3 - 2 + 1)))).
Proof.
  refine (saved_file_reads_back w_taken "/tmp/report.pdf" 2 3
            (pypdf.reader_of report_pages) 5
            (fun i => nth (Z.to_nat i) report_pages (text_page ""))
            (fun i => nth (Z.to_nat i) ["one"; "two"; "three"; "four"; "five"] "")
            _ _ _ _ _ _ _ _ _).
  - vm_compute. discriminate.
  - lia.
  - lia.
  - reflexivity.
  - reflexivity.
  - lia.
  - intros i Hi. assert (i = 1 \/ i = 2) as [-> | ->] by lia;
      repeat split; reflexivity.
  - reflexivity.
  - reflexivity.
Defined.
